(** * The DynamoDB Local supervisor of localstack

    A shallow embedding of
    [localstack-core/localstack/services/dynamodb/server.py]: the
    constructor of [DynamodbServer], the command line it builds for the
    Java process, and the start / stop procedures with their health and
    port polling.

    Python values are modelled as follows: [str] is [string], [int] is [Z],
    [str | None] is [option string], a list of strings is [list string].
    Durations are kept in milliseconds ([0.4] seconds is [400]).  Calls that
    leave the module (the installer, the operating system, the network) are
    answered by explicit records of outcomes, and every such call is written
    to a trace. *)

From Stdlib Require Import String Ascii List ZArith Bool Lia DecimalString.
From Stdlib Require Import NArith DecimalZ DecimalPos.
Import ListNotations.
Open Scope string_scope.
Open Scope list_scope.

(** ** Python helpers *)

(** [str(n)] for an [int]. *)
Definition str (n : Z) : string := NilZero.string_of_int (Z.to_int n).

(** Truth value of a [str | None]: [None] and the empty string are falsy. *)
Definition truthy (o : option string) : bool :=
  match o with
  | Some s => negb (s =? "")
  | None => false
  end.

(** Truth value of an [int | None]: [None] and [0] are falsy. *)
Definition truthy_int (o : option Z) : bool :=
  match o with
  | Some n => negb (n =? 0)%Z
  | None => false
  end.

(** ** Platform *)

(** The enumeration [Arch] is declared in [localstack.utils.platform]; this
    module names its member [arm64] only, every other member is kept by its
    machine name. *)
Inductive Arch : Type :=
| arm64
| other_arch (machine : string).

Definition Arch_eqb (a b : Arch) : bool :=
  match a, b with
  | arm64, arm64 => true
  | other_arch m, other_arch n => m =? n
  | _, _ => false
  end.

(** What the module reads from its surroundings when a server is built and
    when its command line is assembled: [localstack.config], the process
    environment, the installer of the DynamoDB Local package and two
    helpers of the operating system. *)
Record Host : Type := {
  dirs_data : option string;            (* config.dirs.data *)
  dirs_tmp : string;                    (* config.dirs.tmp *)
  is_persistence_enabled : bool;        (* config.is_persistence_enabled() *)
  SNAPSHOT_SAVE_STRATEGY : string;      (* config.SNAPSHOT_SAVE_STRATEGY *)
  DYNAMODB_HEAP_SIZE : string;          (* config.DYNAMODB_HEAP_SIZE *)
  is_env_true : string -> bool;         (* config.is_env_true *)
  getenv : string -> option string;     (* os.getenv(name, None) *)
  get_free_tcp_port : Z;                (* the port get_free_tcp_port() hands out *)
  abspath : string -> string;           (* os.path.abspath *)
  get_arch : Arch;                      (* localstack.utils.platform.get_arch() *)
  get_installed_dir : string;           (* dynamodblocal_package.get_installed_dir() *)
  get_ddb_agent_jar_path : string       (* get_installer().get_ddb_agent_jar_path() *)
}.

(** ** The server object *)

(** The [ShellCommandThread] that watches the child: its [auto_restart]
    attribute and the process it exposes ([process.pid], absent while the
    watcher has no process). *)
Record ShellCommandThread : Type := {
  auto_restart : bool;
  process : option Z
}.

(** The attributes of a [DynamodbServer], with the three attributes of the
    [Server] base class that this module touches. *)
Record DynamodbServer : Type := {
  port : Z;
  host : string;
  db_path : option string;
  heap_size : string;
  delay_transient_statuses : bool;
  optimize_db_before_startup : bool;
  share_db : bool;
  cors : option string;
  _thread : option ShellCommandThread;
  _started : bool;
  _stopped : bool
}.

Definition set_thread (t : option ShellCommandThread) (s : DynamodbServer) : DynamodbServer :=
  {| port := port s; host := host s; db_path := db_path s; heap_size := heap_size s;
     delay_transient_statuses := delay_transient_statuses s;
     optimize_db_before_startup := optimize_db_before_startup s;
     share_db := share_db s; cors := cors s;
     _thread := t; _started := _started s; _stopped := _stopped s |}.

Definition set_started (b : bool) (s : DynamodbServer) : DynamodbServer :=
  {| port := port s; host := host s; db_path := db_path s; heap_size := heap_size s;
     delay_transient_statuses := delay_transient_statuses s;
     optimize_db_before_startup := optimize_db_before_startup s;
     share_db := share_db s; cors := cors s;
     _thread := _thread s; _started := b; _stopped := _stopped s |}.

Definition set_stopped (b : bool) (s : DynamodbServer) : DynamodbServer :=
  {| port := port s; host := host s; db_path := db_path s; heap_size := heap_size s;
     delay_transient_statuses := delay_transient_statuses s;
     optimize_db_before_startup := optimize_db_before_startup s;
     share_db := share_db s; cors := cors s;
     _thread := _thread s; _started := _started s; _stopped := b |}.

(** ** [DynamodbServer.__init__] *)

(** The chain of assignments to [self.db_path] (lines 56 to 75). *)
Definition init_db_path (h : Host) (db_path_arg : option string) : option string :=
  (* f"{config.dirs.data}/dynamodb" if not db_path and config.dirs.data else db_path *)
  let p0 :=
    match dirs_data h with
    | Some d => if negb (truthy db_path_arg) && truthy (dirs_data h)
                then Some (d ++ "/dynamodb")%string else db_path_arg
    | None => db_path_arg
    end in
  (* persistence with the MANUAL save strategy starts from a temporary folder *)
  let p1 :=
    if is_persistence_enabled h && (SNAPSHOT_SAVE_STRATEGY h =? "MANUAL")
    then Some (dirs_tmp h ++ "/dynamodb")%string else p0 in
  (* DYNAMODB_IN_MEMORY takes precedence *)
  let p2 := if is_env_true h "DYNAMODB_IN_MEMORY" then None else p1 in
  (* if self.db_path: self.db_path = os.path.abspath(self.db_path) *)
  match p2 with
  | Some p => if truthy p2 then Some (abspath h p) else p2
  | None => None
  end.

Definition __init__ (h : Host) (port_arg : option Z) (host_arg : string)
    (db_path_arg : option string) : DynamodbServer :=
  (* port = port or get_free_tcp_port() *)
  let p := match port_arg with
           | Some n => if truthy_int port_arg then n else get_free_tcp_port h
           | None => get_free_tcp_port h
           end in
  {| port := p;
     host := host_arg;
     db_path := init_db_path h db_path_arg;
     heap_size := DYNAMODB_HEAP_SIZE h;
     delay_transient_statuses := is_env_true h "DYNAMODB_DELAY_TRANSIENT_STATUSES";
     optimize_db_before_startup := is_env_true h "DYNAMODB_OPTIMIZE_DB_BEFORE_STARTUP";
     share_db := is_env_true h "DYNAMODB_SHARE_DB";
     cors := getenv h "DYNAMODB_CORS";
     _thread := None;
     _started := false;
     _stopped := false |}.

(** ** Properties and the command line *)

Definition in_memory (s : DynamodbServer) : bool :=
  match db_path s with
  | None => true
  | Some _ => false
  end.

Definition jar_path (h : Host) : string :=
  (get_installed_dir h ++ "/DynamoDBLocal.jar")%string.

Definition library_path (h : Host) : string :=
  (get_installed_dir h ++ "/DynamoDBLocal_lib")%string.

Definition _get_java_vm_options (h : Host) : list string :=
  if Arch_eqb arm64 (get_arch h) then ["-XX:UseSVE=0"] else [].

Definition _create_shell_command (h : Host) (s : DynamodbServer) : list string :=
  let cmd :=
    ["java"] ++ _get_java_vm_options h ++
    [("-Xmx" ++ heap_size s)%string;
     ("-javaagent:" ++ get_ddb_agent_jar_path h)%string;
     ("-Djava.library.path=" ++ library_path h)%string;
     "-jar";
     jar_path h] in
  let parameters := [] in
  let parameters := parameters ++ ["-port"; str (port s)] in
  let parameters := if in_memory s then parameters ++ ["-inMemory"] else parameters in
  let parameters :=
    match db_path s with
    | Some p => if truthy (db_path s) then parameters ++ ["-dbPath"; p] else parameters
    | None => parameters
    end in
  let parameters :=
    if delay_transient_statuses s then parameters ++ ["-delayTransientStatuses"] else parameters in
  let parameters :=
    if optimize_db_before_startup s then parameters ++ ["-optimizeDbBeforeStartup"] else parameters in
  let parameters :=
    if share_db s then parameters ++ ["-sharedDb"] else parameters in
  cmd ++ parameters.

(** The lookup table the specification speaks of: one workaround, keyed by
    its name and the architecture it applies to. *)
Definition jvm_workarounds : list ((string * Arch) * string) :=
  [ (("JDK-8345296", arm64), "-XX:UseSVE=0") ].

Definition workaround_flags (a : Arch) : list string :=
  map snd (filter (fun e => Arch_eqb (snd (fst e)) a) jvm_workarounds).

(** ** Effects: exceptions, the trace and the runtime *)

(** The exceptions that can travel through this module. *)
Inductive exn : Type :=
| TypeError          (* out["TableNames"] when out is None *)
| KeyError           (* a response without "TableNames" *)
| AssertionError     (* a failed assert of check_dynamodb *)
| PortNotClosed      (* the port check of wait_for_port_closed *)
| RuntimeError       (* shutdown() or join() refused by the Server base class *)
| OSError            (* mkdir, the installer, run(["ps", "aux"]) *)
| AttributeError     (* self._thread.process is None *)
| NoSuchProcess      (* psutil.Process(pid), terminate(), kill() *)
| NoAttempt.         (* a retry loop that was given no attempt at all *)

(** Every call that leaves the module, in the order it is made. *)
Inductive event : Type :=
| EvIsRunning
| EvIsUp
| EvMkdir (path : string)
| EvInstall
| EvSpawn (cmd : list string) (env_vars : list (string * string))
| EvProbe
| EvSleep (ms : Z)
| EvAutoRestart (b : bool)
| EvShutdown
| EvJoin (timeout_ms : Z)
| EvPortCheck (p : Z)
| EvPsAux
| EvProcessLookup (pid : Z)
| EvTerminate (pid : Z)
| EvKill (pid : Z)
| EvLog (level : string).

(** What [list_tables()] may answer: a response without the key
    ["TableNames"], or one whose value is a list or is not. *)
Inductive response : Type :=
| NoTableNames
| TableNames (is_list : bool).

(** The answers of the surroundings while the server runs.  The four
    observations that are repeated are indexed by how often they were made
    before. *)
Record Runtime : Type := {
  thread_running : nat -> bool;            (* self._thread.running, seen by is_running() *)
  health : nat -> bool;                    (* the health check of is_up() *)
  list_tables : nat -> option response;    (* wait_is_up() and list_tables(); None when they raise *)
  port_open : nat -> bool;                 (* is some listener still on the port? *)
  get_java_env_vars : list (string * string);
  spawned_pid : option Z;                  (* the process the watcher thread exposes *)
  install_fails : bool;
  mkdir_fails : bool;
  shutdown_fails : bool;
  join_fails : bool;
  ps_fails : bool;
  no_such_process : bool;                  (* psutil.Process(pid) raises *)
  terminate_fails : bool;
  kill_fails : bool
}.

Record World : Type := {
  self : DynamodbServer;
  trace : list event;
  running_calls : nat;
  up_calls : nat;
  probes : nat;
  polls : nat
}.

Inductive result (A : Type) : Type :=
| Ok (a : A)
| Raise (e : exn).
Arguments Ok {A} a.
Arguments Raise {A} e.

(** A computation changes the world and returns or raises; what it did to
    the world before raising stays done. *)
Definition M (A : Type) : Type := World -> result A * World.

Definition ret {A : Type} (a : A) : M A := fun w => (Ok a, w).

Definition raise {A : Type} (e : exn) : M A := fun w => (Raise e, w).

Definition bind {A B : Type} (m : M A) (k : A -> M B) : M B :=
  fun w =>
    match m w with
    | (Ok a, w') => k a w'
    | (Raise e, w') => (Raise e, w')
    end.

(** [try: m except Exception: handler] *)
Definition try_except {A : Type} (m : M A) (handler : exn -> M A) : M A :=
  fun w =>
    match m w with
    | (Ok a, w') => (Ok a, w')
    | (Raise e, w') => handler e w'
    end.

Notation "x <- m ;; k" := (bind m (fun x => k))
  (at level 61, m at next level, right associativity).
Notation "m ;; k" := (bind m (fun _ => k))
  (at level 61, right associativity).

Definition get_self : M DynamodbServer := fun w => (Ok (self w), w).

Definition modify_self (f : DynamodbServer -> DynamodbServer) : M unit :=
  fun w => (Ok tt, {| self := f (self w); trace := trace w;
                      running_calls := running_calls w; up_calls := up_calls w;
                      probes := probes w; polls := polls w |}).

Definition emit (e : event) : M unit :=
  fun w => (Ok tt, {| self := self w; trace := trace w ++ [e];
                      running_calls := running_calls w; up_calls := up_calls w;
                      probes := probes w; polls := polls w |}).

(** A call whose only outcome is to succeed or to raise. *)
Definition call (e : event) (fails : bool) (err : exn) : M unit :=
  emit e ;; if fails then raise err else ret tt.

Definition LOG (level : string) : M unit := emit (EvLog level).

(** The entries of a trace that are diagnostics: log lines and the listing
    of processes that goes into the warning of [stop_dynamodb]. *)
Definition is_diagnostic (e : event) : bool :=
  match e with
  | EvLog _ | EvPsAux => true
  | _ => false
  end.

Definition actions (tr : list event) : list event :=
  filter (fun e => negb (is_diagnostic e)) tr.

Definition is_spawn (e : event) : bool :=
  match e with
  | EvSpawn _ _ => true
  | _ => false
  end.

Definition spawns (tr : list event) : nat := length (filter is_spawn tr).

Definition is_forced (e : event) : bool :=
  match e with
  | EvProcessLookup _ | EvTerminate _ | EvKill _ => true
  | _ => false
  end.

(** ** Helpers that live outside this module *)

(** Modelled from the spec: [localstack.utils.sync.retry] is not part of
    this module.  It is the bounded retry loop with a fixed pause: the
    function is attempted at most [retries] times, each failed attempt is
    followed by a pause of [sleep], and when the attempts are used up the
    error of the last one is raised. *)
Fixpoint retry_from (last : exn) (function : M unit) (sleep : Z) (retries : nat) : M unit :=
  match retries with
  | O => raise last
  | S n =>
      try_except function
        (fun error => emit (EvSleep sleep) ;; retry_from error function sleep n)
  end.

Definition retry (function : M unit) (sleep : Z) (retries : nat) : M unit :=
  retry_from NoAttempt function sleep retries.

(** Modelled from the spec: [localstack.utils.functions.run_safe] is not
    part of this module.  It runs a best-effort call and swallows its
    error, which is only logged. *)
Definition run_safe (m : M unit) : M unit :=
  try_except m (fun _ => LOG "warning").

(** [dict] update [{**d, k: v}] on a dictionary kept as an association
    list in insertion order. *)
Fixpoint dict_set (k v : string) (d : list (string * string)) : list (string * string) :=
  match d with
  | [] => [(k, v)]
  | (k', v') :: rest =>
      if k' =? k then (k', v) :: rest else (k', v') :: dict_set k v rest
  end.

Section Supervisor.

Variable h : Host.
Variable r : Runtime.

(** Modelled from the spec: one look of the port waiter at the port, which
    fails while some listener still holds it. *)
Definition port_check (p : Z) : M unit :=
  fun w =>
    (if port_open r (polls w) then Raise PortNotClosed else Ok tt,
     {| self := self w; trace := trace w ++ [EvPortCheck p];
        running_calls := running_calls w; up_calls := up_calls w;
        probes := probes w; polls := S (polls w) |}).

(** Modelled from the spec: [localstack.utils.net.wait_for_port_closed] is
    not part of this module.  It polls the port at a fixed interval, returns
    once no listener holds the port and raises when the retries are used
    up. *)
Definition wait_for_port_closed (p : Z) (sleep_time : Z) (retries : nat) : M unit :=
  retry (port_check p) sleep_time retries.

(** Modelled from the spec: [Server.is_running] of
    [localstack.utils.serving] is not part of this module.  It is the
    lightweight check that the process is alive. *)
Definition is_running : M bool :=
  fun w =>
    (Ok (thread_running r (running_calls w)),
     {| self := self w; trace := trace w ++ [EvIsRunning];
        running_calls := S (running_calls w); up_calls := up_calls w;
        probes := probes w; polls := polls w |}).

(** Modelled from the spec: [Server.is_up] of [localstack.utils.serving] is
    not part of this module.  It is the lightweight check that the server
    can be reached over the network. *)
Definition is_up : M bool :=
  fun w =>
    (Ok (health r (up_calls w)),
     {| self := self w; trace := trace w ++ [EvIsUp];
        running_calls := running_calls w; up_calls := S (up_calls w);
        probes := probes w; polls := polls w |}).

(** The body of the [try] block of [check_dynamodb]: [wait_is_up()] and the
    [list_tables()] request with the placeholder credentials. *)
Definition probe : M response :=
  fun w =>
    (match list_tables r (probes w) with
     | Some out => Ok out
     | None => Raise OSError
     end,
     {| self := self w; trace := trace w ++ [EvProbe];
        running_calls := running_calls w; up_calls := up_calls w;
        probes := S (probes w); polls := polls w |}).

(** ** The methods of [DynamodbServer] *)

Definition do_start_thread : M ShellCommandThread :=
  call EvInstall (install_fails r) OSError ;;
  s <- get_self ;;
  let cmd := _create_shell_command h s in
  let env_vars := dict_set "DDB_LOCAL_TELEMETRY" "0" (get_java_env_vars r) in
  LOG "debug" ;;
  emit (EvSpawn cmd env_vars) ;;
  ret {| auto_restart := true; process := spawned_pid r |}.

(** Modelled from the spec: [Server.start] of [localstack.utils.serving] is
    not part of this module.  The process-thread abstraction refuses a
    second start unless its flags were reset: a server whose started flag
    is set is left alone and [False] is returned, otherwise the thread of
    [do_start_thread] is stored, the flag is set and [True] is returned. *)
Definition start : M bool :=
  s <- get_self ;;
  if _started s then ret false
  else
    t <- do_start_thread ;;
    modify_self (set_thread (Some t)) ;;
    modify_self (set_started true) ;;
    ret true.

(** Modelled from the spec: [Server.shutdown] of [localstack.utils.serving]
    is not part of this module.  It sends the graceful shutdown and sets the
    stopped flag. *)
Definition shutdown : M unit :=
  call EvShutdown (shutdown_fails r) RuntimeError ;;
  modify_self (set_stopped true).

(** Modelled from the spec: [Server.join] of [localstack.utils.serving] is
    not part of this module.  It waits for the watcher thread, for at most
    the given time. *)
Definition join (timeout : Z) : M unit :=
  call (EvJoin timeout) (join_fails r) RuntimeError.

Definition check_dynamodb (expect_shutdown : bool) : M unit :=
  out <- try_except (o <- probe ;; ret (Some o))
                    (fun _ => LOG "exception" ;; ret None) ;;
  if expect_shutdown then
    match out with
    | None => ret tt
    | Some _ => raise AssertionError
    end
  else
    match out with
    | None => raise TypeError
    | Some NoTableNames => raise KeyError
    | Some (TableNames false) => raise AssertionError
    | Some (TableNames true) => ret tt
    end.

Definition wait_for_dynamodb : M unit :=
  retry (check_dynamodb false) 400 10.

Definition start_dynamodb : M bool :=
  (* if self.is_running() and self.is_up(): return True *)
  running <- is_running ;;
  up <- (if running then is_up else ret false) ;;
  if up then ret true
  else
    modify_self (set_started false) ;;
    modify_self (set_stopped false) ;;
    s <- get_self ;;
    match db_path s with
    | Some p => if truthy (db_path s) then call (EvMkdir p) (mkdir_fails r) OSError else ret tt
    | None => ret tt
    end ;;
    started <- start ;;
    wait_for_dynamodb ;;
    ret started.

Definition stop_dynamodb : M unit :=
  s <- get_self ;;
  match _thread s with
  | None => ret tt
  | Some t =>
      modify_self (set_thread (Some {| auto_restart := false; process := process t |})) ;;
      emit (EvAutoRestart false) ;;
      shutdown ;;
      join 10000 ;;
      try_except (wait_for_port_closed (port s) 800 10)
        (fun _ =>
           call EvPsAux (ps_fails r) OSError ;;
           LOG "warning" ;;
           (* attempt to terminate/kill the process manually *)
           match process t with
           | None => raise AttributeError
           | Some server_pid =>
               LOG "info" ;;
               call (EvProcessLookup server_pid) (no_such_process r) NoSuchProcess ;;
               run_safe (call (EvTerminate server_pid) (terminate_fails r) NoSuchProcess) ;;
               run_safe (call (EvKill server_pid) (kill_fails r) NoSuchProcess) ;;
               wait_for_port_closed (port s) 500 8
           end)
  end.

End Supervisor.

(** ** Reading a command line *)

(** The last character of a string. *)
Fixpoint last_char (s : string) : option ascii :=
  match s with
  | EmptyString => None
  | String c EmptyString => Some c
  | String _ t => last_char t
  end.

Definition is_digit (c : ascii) : bool :=
  (48 <=? nat_of_ascii c)%nat && (nat_of_ascii c <=? 57)%nat.

(** A text that reads as an option of a command line: a dash followed by
    something that is not a digit. *)
Definition option_like (s : string) : bool :=
  match s with
  | String "-" (String c _) => negb (is_digit c)
  | _ => false
  end.

(** [s.startswith(c)] for a single character. *)
Definition starts_with (c : ascii) (s : string) : bool :=
  match s with
  | String a _ => Ascii.eqb a c
  | EmptyString => false
  end.

(** The data path of a server does not begin with a dash.  The constructor
    leaves [None], the empty string or the result of [os.path.abspath]. *)
Definition plain_db_path (s : DynamodbServer) : bool :=
  match db_path s with
  | Some p => negb (starts_with "-" p)
  | None => true
  end.

(** [a] immediately followed by [b] somewhere in [l]. *)
Fixpoint has_pair (a b : string) (l : list string) : Prop :=
  match l with
  | x :: tl =>
      match tl with
      | y :: _ => (x = a /\ y = b) \/ has_pair a b tl
      | [] => False
      end
  | [] => False
  end.

(** The part of the command line that depends on the attributes of the
    server only. *)
Definition parameters_of (s : DynamodbServer) : list string :=
  ["-port"; str (port s)]
  ++ (if in_memory s then ["-inMemory"] else [])
  ++ (match db_path s with
      | Some p => if negb (p =? "") then ["-dbPath"; p] else []
      | None => []
      end)
  ++ (if delay_transient_statuses s then ["-delayTransientStatuses"] else [])
  ++ (if optimize_db_before_startup s then ["-optimizeDbBeforeStartup"] else [])
  ++ (if share_db s then ["-sharedDb"] else []).

Definition java_of (h : Host) (s : DynamodbServer) : list string :=
  ["java"] ++ _get_java_vm_options h ++
  [("-Xmx" ++ heap_size s)%string;
   ("-javaagent:" ++ get_ddb_agent_jar_path h)%string;
   ("-Djava.library.path=" ++ library_path h)%string;
   "-jar";
   jar_path h].

(** ** Reading a trace *)

(** [k] repetitions of a round of events. *)
Fixpoint rounds (round : list event) (k : nat) : list event :=
  match k with
  | O => []
  | S k' => round ++ rounds round k'
  end.

(** Does a probe answer let [check_dynamodb] pass? *)
Definition passes (o : option response) : bool :=
  match o with
  | Some (TableNames true) => true
  | _ => false
  end.

(** The error [check_dynamodb] raises on an answer that does not pass. *)
Definition failure_of (o : option response) : exn :=
  match o with
  | None => TypeError
  | Some NoTableNames => KeyError
  | Some (TableNames _) => AssertionError
  end.

(** What one call of [check_dynamodb] writes to the trace. *)
Definition probe_events (o : option response) : list event :=
  match o with
  | None => [EvProbe; EvLog "exception"]
  | Some _ => [EvProbe]
  end.

(** The trace of [k] failed health checks in a row, the first of which is
    probe number [n], with the pause after each. *)
Fixpoint failed_probes (r : Runtime) (n k : nat) : list event :=
  match k with
  | O => []
  | S k' => probe_events (list_tables r n) ++ [EvSleep 400] ++ failed_probes r (S n) k'
  end.

(** The guard of [start_dynamodb] as it would evaluate in a world. *)
Definition liveness (r : Runtime) (w : World) : bool :=
  thread_running r (running_calls w) && health r (up_calls w).

Definition guard_events (r : Runtime) (w : World) : list event :=
  if thread_running r (running_calls w) then [EvIsRunning; EvIsUp] else [EvIsRunning].

Definition mkdir_events (s : DynamodbServer) : list event :=
  match db_path s with
  | Some p => if truthy (db_path s) then [EvMkdir p] else []
  | None => []
  end.

(** The world in which [start_dynamodb] begins to wait for the server: the
    guard has failed, the flags are reset, the directory is made and the
    thread is started. *)
Definition launched (h : Host) (r : Runtime) (w : World) : World :=
  let s := set_stopped false (set_started false (self w)) in
  {| self := set_started true
               (set_thread (Some {| auto_restart := true; process := spawned_pid r |}) s);
     trace := trace w ++ guard_events r w ++ mkdir_events (self w)
              ++ [EvInstall; EvLog "debug";
                  EvSpawn (_create_shell_command h s)
                    (dict_set "DDB_LOCAL_TELEMETRY" "0" (get_java_env_vars r))];
     running_calls := S (running_calls w);
     up_calls := if thread_running r (running_calls w) then S (up_calls w) else up_calls w;
     probes := probes w;
     polls := polls w |}.

(** The world in which [stop_dynamodb] begins to watch the port: restarts
    are off, the shutdown is sent and the thread is joined. *)
Definition stopping (w : World) (t : ShellCommandThread) : World :=
  {| self := set_stopped true
               (set_thread (Some {| auto_restart := false; process := process t |}) (self w));
     trace := trace w ++ [EvAutoRestart false; EvShutdown; EvJoin 10000];
     running_calls := running_calls w;
     up_calls := up_calls w;
     probes := probes w;
     polls := polls w |}.

(** What the forced kill of [stop_dynamodb] writes to the trace: the
    listing of processes and the warning, the lookup of the process, then
    terminate and kill, each with a log line when it fails. *)
Definition forced_kill_events (r : Runtime) (pid : Z) : list event :=
  [EvPsAux; EvLog "warning"; EvLog "info"; EvProcessLookup pid; EvTerminate pid]
  ++ (if terminate_fails r then [EvLog "warning"] else [])
  ++ [EvKill pid]
  ++ (if kill_fails r then [EvLog "warning"] else []).

(** A world that differs from [w] by more trace and more polls only. *)
Definition polled (w : World) (evs : list event) (k : nat) : World :=
  {| self := self w; trace := trace w ++ evs;
     running_calls := running_calls w; up_calls := up_calls w;
     probes := probes w; polls := polls w + k |}.

(** A world that differs from [w] by more trace and more probes only. *)
Definition probed (w : World) (evs : list event) (k : nat) : World :=
  {| self := self w; trace := trace w ++ evs;
     running_calls := running_calls w; up_calls := up_calls w;
     probes := probes w + k; polls := polls w |}.

(** ** Examples *)

Definition example_host : Host :=
  {| dirs_data := None;
     dirs_tmp := "/tmp/localstack";
     is_persistence_enabled := false;
     SNAPSHOT_SAVE_STRATEGY := "ON_SHUTDOWN";
     DYNAMODB_HEAP_SIZE := "256m";
     is_env_true := fun _ => false;
     getenv := fun _ => None;
     get_free_tcp_port := 40123;
     abspath := fun p => if starts_with "/" p then p else ("/opt/code/" ++ p)%string;
     get_arch := arm64;
     get_installed_dir := "/usr/lib/localstack/dynamodb-local";
     get_ddb_agent_jar_path := "/usr/lib/localstack/dynamodb-local/ddb-agent.jar" |}.

(** The same host with [DYNAMODB_IN_MEMORY] switched on, a data directory
    and the MANUAL save strategy. *)
Definition in_memory_host : Host :=
  {| dirs_data := Some "/var/lib/localstack/data";
     dirs_tmp := "/tmp/localstack";
     is_persistence_enabled := true;
     SNAPSHOT_SAVE_STRATEGY := "MANUAL";
     DYNAMODB_HEAP_SIZE := "256m";
     is_env_true := fun name => name =? "DYNAMODB_IN_MEMORY";
     getenv := fun _ => None;
     get_free_tcp_port := 40123;
     abspath := fun p => if starts_with "/" p then p else ("/opt/code/" ++ p)%string;
     get_arch := other_arch "amd64";
     get_installed_dir := "/usr/lib/localstack/dynamodb-local";
     get_ddb_agent_jar_path := "/usr/lib/localstack/dynamodb-local/ddb-agent.jar" |}.

(** A runtime in which the child comes up at its third probe, is seen
    running from the second look on, and releases the port at once. *)
Definition healthy_runtime : Runtime :=
  {| thread_running := fun n => Nat.ltb 0 n;
     health := fun _ => true;
     list_tables := fun n => if Nat.ltb n 2 then None else Some (TableNames true);
     port_open := fun _ => false;
     get_java_env_vars := [("JAVA_HOME", "/usr/lib/jvm/java-21")];
     spawned_pid := Some 4711%Z;
     install_fails := false; mkdir_fails := false;
     shutdown_fails := false; join_fails := false; ps_fails := false;
     no_such_process := false; terminate_fails := false; kill_fails := false |}.

(** A runtime in which the port is never released and the child never
    answers a probe; terminate fails, kill goes through. *)
Definition stubborn_runtime : Runtime :=
  {| thread_running := fun _ => false;
     health := fun _ => false;
     list_tables := fun _ => None;
     port_open := fun _ => true;
     get_java_env_vars := [];
     spawned_pid := Some 4711%Z;
     install_fails := false; mkdir_fails := false;
     shutdown_fails := false; join_fails := false; ps_fails := false;
     no_such_process := false; terminate_fails := true; kill_fails := false |}.

(** A runtime in which the port is released only after the forced kill: it
    is open for the ten looks of the first phase and for two more. *)
Definition slow_runtime : Runtime :=
  {| thread_running := fun _ => true;
     health := fun _ => true;
     list_tables := fun _ => Some (TableNames true);
     port_open := fun n => Nat.ltb n 12;
     get_java_env_vars := [];
     spawned_pid := Some 4711%Z;
     install_fails := false; mkdir_fails := false;
     shutdown_fails := false; join_fails := false; ps_fails := false;
     no_such_process := false; terminate_fails := true; kill_fails := false |}.

Definition fresh_world (s : DynamodbServer) : World :=
  {| self := s; trace := []; running_calls := 0; up_calls := 0; probes := 0; polls := 0 |}.

(** A server on port 4566 that keeps its tables under [/var/lib/ddb]. *)
Definition example_server : DynamodbServer :=
  __init__ example_host (Some 4566%Z) "localhost" (Some "/var/lib/ddb").

(** The same server once its watcher thread exists. *)
Definition started_world : World :=
  fresh_world (set_started true
                 (set_thread (Some {| auto_restart := true; process := Some 4711%Z |})
                    example_server)).

(** ** Measuring what a procedure does *)

(** [d[k]] on a dictionary kept as an association list. *)
Fixpoint dict_get (k : string) (d : list (string * string)) : option string :=
  match d with
  | [] => None
  | (k', v) :: rest => if k' =? k then Some v else dict_get k rest
  end.

(** [int(s)] on a decimal string. *)
Definition int_of_str (s : string) : option Z :=
  option_map Z.of_int (NilZero.int_of_string s).

(** The attributes of a server that describe its configuration. *)
Definition config_of (s : DynamodbServer) :
    Z * string * option string * string * bool * bool * bool * option string :=
  (port s, host s, db_path s, heap_size s, delay_transient_statuses s,
   optimize_db_before_startup s, share_db s, cors s).

(** The sum of a weight over the events of a trace. *)
Fixpoint cost (wt : event -> N) (tr : list event) : N :=
  match tr with
  | [] => 0
  | e :: tl => wt e + cost wt tl
  end.

(** Weights: processes spawned, health probes, looks at the port,
    shutdowns sent, terminate and kill calls, directories made, and the
    milliseconds spent in pauses and in the join. *)
Definition spawn_weight (e : event) : N :=
  match e with EvSpawn _ _ => 1 | _ => 0 end.

Definition probe_weight (e : event) : N :=
  match e with EvProbe => 1 | _ => 0 end.

Definition port_check_weight (e : event) : N :=
  match e with EvPortCheck _ => 1 | _ => 0 end.

Definition shutdown_weight (e : event) : N :=
  match e with EvShutdown | EvJoin _ | EvAutoRestart _ => 1 | _ => 0 end.

Definition terminate_weight (e : event) : N :=
  match e with EvTerminate _ => 1 | _ => 0 end.

Definition kill_weight (e : event) : N :=
  match e with EvKill _ => 1 | _ => 0 end.


Definition wait_weight (e : event) : N :=
  match e with
  | EvSleep ms => Z.to_N ms
  | EvJoin ms => Z.to_N ms
  | _ => 0
  end.

(** Whatever the world and the outcome, the procedure only appends to the
    trace, and what it appends weighs at most [c]. *)
Definition bounded (wt : event -> N) {A : Type} (m : M A) (c : N) : Prop :=
  forall w, exists evs,
    trace (snd (m w)) = trace w ++ evs /\ (cost wt evs <= c)%N.

(** Whatever the world and the outcome, a property of the server object
    that holds before the procedure holds after it. *)
Definition keeps (I : DynamodbServer -> Prop) {A : Type} (m : M A) : Prop :=
  forall w, I (self w) -> I (self (snd (m w))).

(** A runtime whose child never comes up, with a chosen behaviour of the
    port, of the process the watcher exposes, and of the installer, of
    [mkdir] and of the process lookup; the installer asks for telemetry. *)
Definition runtime_with (port_is_open : nat -> bool) (pid : option Z)
    (install mkdir lookup : bool) : Runtime :=
  {| thread_running := fun _ => false;
     health := fun _ => false;
     list_tables := fun _ => None;
     port_open := port_is_open;
     get_java_env_vars := [("DDB_LOCAL_TELEMETRY", "1"); ("JAVA_HOME", "/usr/lib/jvm/java-21")];
     spawned_pid := pid;
     install_fails := install; mkdir_fails := mkdir;
     shutdown_fails := false; join_fails := false; ps_fails := false;
     no_such_process := lookup; terminate_fails := false; kill_fails := false |}.

(** The example server with a watcher thread that exposes no process. *)
Definition started_world_without_process : World :=
  fresh_world (set_started true
                 (set_thread (Some {| auto_restart := true; process := None |})
                    example_server)).

(** A host with persistence, the MANUAL save strategy, the shared
    database switch and a CORS setting. *)
Definition manual_host : Host :=
  {| dirs_data := Some "/var/lib/localstack/data";
     dirs_tmp := "/tmp/localstack";
     is_persistence_enabled := true;
     SNAPSHOT_SAVE_STRATEGY := "MANUAL";
     DYNAMODB_HEAP_SIZE := "1G";
     is_env_true := fun name => name =? "DYNAMODB_SHARE_DB";
     getenv := fun name => if name =? "DYNAMODB_CORS" then Some "*" else None;
     get_free_tcp_port := 40123;
     abspath := fun p => if starts_with "/" p then p else ("/opt/code/" ++ p)%string;
     get_arch := other_arch "amd64";
     get_installed_dir := "/usr/lib/localstack/dynamodb-local";
     get_ddb_agent_jar_path := "/usr/lib/localstack/dynamodb-local/ddb-agent.jar" |}.

(** * Lemmas *)

Lemma last_char_append (s : string) (c : ascii) (t : string) :
  last_char (s ++ String c t) = last_char (String c t).
Proof.
  induction s as [|a s IH]; [reflexivity|].
  change (last_char (String a (s ++ String c t)) = last_char (String c t)).
  rewrite <- IH. simpl. destruct (s ++ String c t)%string eqn:E; [|reflexivity].
  destruct s; discriminate E.
Qed.

Lemma jar_path_last (h : Host) : last_char (jar_path h) = Some "r"%char.
Proof. unfold jar_path. rewrite last_char_append. reflexivity. Qed.

Lemma str_option_like (z : Z) : option_like (str z) = false.
Proof.
  unfold str. destruct (Z.to_int z) as [d|d]; destruct d; reflexivity.
Qed.

Lemma plain_option_like (p : string) :
  starts_with "-" p = false -> option_like p = false.
Proof.
  destruct p as [|c p]; [reflexivity|].
  destruct c as [[] [] [] [] [] [] [] []]; simpl; intros H;
    first [reflexivity | discriminate H].
Qed.

Lemma plain_db_path_option_like (s : DynamodbServer) (p : string) :
  plain_db_path s = true -> db_path s = Some p -> option_like p = false.
Proof.
  unfold plain_db_path. intros H E. rewrite E in H.
  apply plain_option_like. destruct (starts_with "-" p); [discriminate H | reflexivity].
Qed.

Lemma create_shell_command_shape (h : Host) (s : DynamodbServer) :
  _create_shell_command h s = java_of h s ++ parameters_of s.
Proof.
  unfold _create_shell_command, java_of, parameters_of, truthy.
  destruct (in_memory s), (db_path s) as [p|], (delay_transient_statuses s),
    (optimize_db_before_startup s), (share_db s);
    try destruct (negb (p =? "")); reflexivity.
Qed.

Lemma has_pair_app_r (a b : string) (l1 l2 : list string) :
  has_pair a b l2 -> has_pair a b (l1 ++ l2).
Proof.
  intros H. induction l1 as [|x l1 IH]; [exact H|].
  simpl. destruct (l1 ++ l2) as [|y tl] eqn:E.
  - destruct l1; [simpl in E; rewrite E in H; destruct H | discriminate E].
  - right. exact IH.
Qed.

(** An equation between an entry of the command line and a literal that
    cannot hold. *)
Ltac refute_eq H :=
  first
    [ discriminate H
    | apply (f_equal last_char) in H; rewrite jar_path_last in H; discriminate H
    | apply (f_equal option_like) in H; rewrite str_option_like in H; discriminate H
    | match goal with
      | Hp : option_like _ = false |- _ =>
          apply (f_equal option_like) in H; rewrite Hp in H; discriminate H
      end ].

Ltac refute_in H :=
  simpl in H;
  repeat (destruct H as [H|H]; [solve [refute_eq H] |]);
  try contradiction.

Ltac pick_in :=
  simpl; repeat (first [left; reflexivity | right]).

(** The cases of a command line: the architecture, the data path and the
    three switches. *)
Ltac command_cases h s p Ep :=
  rewrite ?create_shell_command_shape;
  unfold java_of, parameters_of, _get_java_vm_options, in_memory;
  destruct (get_arch h) as [|machine];
  destruct (db_path s) as [[|c p]|] eqn:Ep;
  destruct (delay_transient_statuses s), (optimize_db_before_startup s), (share_db s).


Ltac refute_pair H :=
  simpl in H;
  repeat (destruct H as [[H ?]|H]; [solve [refute_eq H] |]);
  try contradiction.

Ltac read_pair H :=
  let H1 := fresh "H" in
  let H2 := fresh "H" in
  simpl in H;
  repeat (destruct H as [[H1 H2]|H];
          [first [ solve [refute_eq H1]
                 | subst; split; [reflexivity | discriminate] ] |]);
  try contradiction.

Ltac pick_pair :=
  simpl; repeat (first [left; split; reflexivity | right]).


Lemma vm_options_lookup (h : Host) :
  _get_java_vm_options h = workaround_flags (get_arch h).
Proof.
  unfold _get_java_vm_options, workaround_flags.
  destruct (get_arch h); reflexivity.
Qed.

Lemma port_flag_present (h : Host) (s : DynamodbServer) :
  has_pair "-port" (str (port s)) (_create_shell_command h s).
Proof.
  rewrite create_shell_command_shape. apply has_pair_app_r.
  unfold parameters_of. simpl. left. split; reflexivity.
Qed.

Lemma in_sve_flag (h : Host) (s : DynamodbServer) :
  plain_db_path s = true ->
  (In "-XX:UseSVE=0" (_create_shell_command h s) <-> get_arch h = arm64).
Proof.
  intros Hplain.
  assert (Hp : forall p, db_path s = Some p -> option_like p = false)
    by (intros p; apply plain_db_path_option_like; exact Hplain).
  command_cases h s p Ep;
    try (specialize (Hp _ eq_refl));
    (split; intros H;
     [ first [reflexivity | solve [exfalso; refute_in H]]
     | first [discriminate H | solve [pick_in]] ]).
Qed.

(** What the constructor leaves in [db_path]. *)
Lemma init_db_path_cases (h : Host) (db_path_arg : option string) :
  init_db_path h db_path_arg = None
  \/ init_db_path h db_path_arg = Some ""
  \/ exists p, init_db_path h db_path_arg = Some (abspath h p).
Proof.
  unfold init_db_path.
  destruct (is_env_true h "DYNAMODB_IN_MEMORY"); [left; reflexivity|].
  match goal with
  | |- context [match ?x with Some p => if truthy ?x then _ else _ | None => None end] =>
      destruct x as [[|c q]|]
  end.
  - right; left; reflexivity.
  - right; right. eexists. reflexivity.
  - left; reflexivity.
Qed.

Lemma init_plain_db_path (h : Host) (port_arg : option Z) (host_arg : string)
    (db_path_arg : option string) :
  (forall p, starts_with "/" (abspath h p) = true) ->
  plain_db_path (__init__ h port_arg host_arg db_path_arg) = true.
Proof.
  intros Habs. unfold plain_db_path, __init__. simpl.
  destruct (init_db_path_cases h db_path_arg) as [E|[E|[p E]]]; rewrite E;
    try reflexivity.
  specialize (Habs p). destruct (abspath h p) as [|c q]; simpl in Habs;
    [discriminate Habs|].
  apply Ascii.eqb_eq in Habs. subst c. reflexivity.
Qed.

(** ** The polling loops *)

Lemma world_eq (s s' : DynamodbServer) (t t' : list event) (a a' b b' c c' d d' : nat) :
  s = s' -> t = t' -> a = a' -> b = b' -> c = c' -> d = d' ->
  {| self := s; trace := t; running_calls := a; up_calls := b; probes := c; polls := d |}
  = {| self := s'; trace := t'; running_calls := a'; up_calls := b'; probes := c'; polls := d' |}.
Proof. intros; subst; reflexivity. Qed.

Ltac same_world :=
  apply world_eq; simpl;
  try reflexivity; try lia;
  try (rewrite ?Nat.add_1_r, <- ?app_assoc; simpl; rewrite <- ?app_assoc; reflexivity).

Section Loops.

Variable r : Runtime.

Lemma retry_port_closes (p sl : Z) (k : nat) :
  forall (n : nat) (last : exn) (w : World),
    k < n ->
    (forall j, j < k -> port_open r (polls w + j) = true) ->
    port_open r (polls w + k) = false ->
    retry_from last (port_check r p) sl n w
    = (Ok tt, polled w (rounds [EvPortCheck p; EvSleep sl] k ++ [EvPortCheck p]) (S k)).
Proof.
  induction k as [|k IH]; intros n last w Hk Hopen Hclosed.
  - destruct n as [|n]; [lia|].
    rewrite Nat.add_0_r in Hclosed.
    simpl. unfold try_except, port_check. rewrite Hclosed.
    f_equal. unfold polled. same_world.
  - destruct n as [|n]; [lia|].
    assert (H0 : port_open r (polls w) = true)
      by (rewrite <- (Nat.add_0_r (polls w)); apply Hopen; lia).
    simpl. unfold try_except, port_check at 1. rewrite H0.
    unfold bind at 1, emit at 1.
    rewrite IH.
    + f_equal. unfold polled. same_world.
    + lia.
    + intros j Hj. simpl. rewrite <- Nat.add_succ_r. apply Hopen. lia.
    + simpl. rewrite <- Nat.add_succ_r. exact Hclosed.
Qed.

Lemma retry_port_exhausted (p sl : Z) (n : nat) :
  forall (last : exn) (w : World),
    (forall j, j < n -> port_open r (polls w + j) = true) ->
    retry_from last (port_check r p) sl n w
    = (Raise (match n with O => last | S _ => PortNotClosed end),
       polled w (rounds [EvPortCheck p; EvSleep sl] n) n).
Proof.
  induction n as [|n IH]; intros last w Hopen.
  - simpl. unfold raise. f_equal. unfold polled. destruct w. same_world.
    symmetry. apply app_nil_r.
  - assert (H0 : port_open r (polls w) = true)
      by (rewrite <- (Nat.add_0_r (polls w)); apply Hopen; lia).
    simpl. unfold try_except, port_check at 1. rewrite H0.
    unfold bind at 1, emit at 1.
    rewrite IH.
    + f_equal; [destruct n; reflexivity|]. unfold polled. same_world.
    + intros j Hj. simpl. rewrite <- Nat.add_succ_r. apply Hopen. lia.
Qed.

Lemma check_dynamodb_probe (w : World) :
  check_dynamodb r false w
  = (if passes (list_tables r (probes w)) then Ok tt
     else Raise (failure_of (list_tables r (probes w))),
     probed w (probe_events (list_tables r (probes w))) 1).
Proof.
  unfold check_dynamodb, bind, try_except, probe, LOG, emit, ret, raise.
  destruct (list_tables r (probes w)) as [[|[]]|]; simpl;
    (f_equal; unfold probed; same_world).
Qed.

Lemma retry_probe_passes (k : nat) :
  forall (n : nat) (last : exn) (w : World),
    k < n ->
    (forall j, j < k -> passes (list_tables r (probes w + j)) = false) ->
    passes (list_tables r (probes w + k)) = true ->
    retry_from last (check_dynamodb r false) 400 n w
    = (Ok tt, probed w (failed_probes r (probes w) k ++ [EvProbe]) (S k)).
Proof.
  induction k as [|k IH]; intros n last w Hk Hfail Hpass.
  - destruct n as [|n]; [lia|].
    rewrite Nat.add_0_r in Hpass.
    simpl. unfold try_except. rewrite check_dynamodb_probe, Hpass.
    f_equal. unfold probed.
    destruct (list_tables r (probes w)) as [[|[]]|]; try discriminate Hpass.
    same_world.
  - destruct n as [|n]; [lia|].
    assert (H0 : passes (list_tables r (probes w)) = false)
      by (rewrite <- (Nat.add_0_r (probes w)); apply Hfail; lia).
    simpl. unfold try_except. rewrite check_dynamodb_probe, H0.
    unfold bind at 1, emit at 1.
    rewrite IH.
    + f_equal. unfold probed. same_world.
    + lia.
    + intros j Hj. simpl.
      replace (probes w + 1 + j) with (probes w + S j) by lia.
      apply Hfail. lia.
    + simpl. replace (probes w + 1 + k) with (probes w + S k) by lia.
      exact Hpass.
Qed.

Lemma retry_probe_exhausted (n : nat) :
  forall (last : exn) (w : World),
    (forall j, j < n -> passes (list_tables r (probes w + j)) = false) ->
    retry_from last (check_dynamodb r false) 400 n w
    = (Raise (match n with
              | O => last
              | S m => failure_of (list_tables r (probes w + m))
              end),
       probed w (failed_probes r (probes w) n) n).
Proof.
  induction n as [|n IH]; intros last w Hfail.
  - simpl. unfold raise. f_equal. unfold probed. destruct w. same_world.
    symmetry. apply app_nil_r.
  - assert (H0 : passes (list_tables r (probes w)) = false)
      by (rewrite <- (Nat.add_0_r (probes w)); apply Hfail; lia).
    simpl. unfold try_except. rewrite check_dynamodb_probe, H0.
    unfold bind at 1, emit at 1.
    rewrite IH.
    + f_equal.
      * destruct n as [|m]; simpl.
        -- rewrite Nat.add_0_r. reflexivity.
        -- replace (probes w + 1 + m) with (probes w + S m) by lia. reflexivity.
      * unfold probed. same_world.
    + intros j Hj. simpl.
      replace (probes w + 1 + j) with (probes w + S j) by lia.
      apply Hfail. lia.
Qed.

End Loops.

(** ** The two procedures, step by step *)

Section Procedures.

Variable h : Host.
Variable r : Runtime.

Local Opaque _create_shell_command.

Lemma start_dynamodb_running (w : World) :
  liveness r w = true ->
  start_dynamodb h r w
  = (Ok true,
     {| self := self w; trace := trace w ++ [EvIsRunning; EvIsUp];
        running_calls := S (running_calls w); up_calls := S (up_calls w);
        probes := probes w; polls := polls w |}).
Proof.
  unfold liveness. intros H. apply andb_prop in H. destruct H as [Hr Hu].
  unfold start_dynamodb, bind, is_running, is_up, ret.
  rewrite Hr. simpl. rewrite Hu. f_equal. same_world.
Qed.

Lemma start_dynamodb_launch (w : World) :
  liveness r w = false ->
  install_fails r = false ->
  mkdir_fails r = false ->
  start_dynamodb h r w
  = match wait_for_dynamodb r (launched h r w) with
    | (Ok _, w') => (Ok true, w')
    | (Raise e, w') => (Raise e, w')
    end.
Proof.
  unfold liveness. intros Hlive Hinstall Hmkdir.
  destruct w as [s tr a b c d]. destruct s as [? ? dbp ? ? ? ? ? ? ? ?].
  cbv [start_dynamodb bind is_running is_up ret modify_self get_self
       start do_start_thread call emit LOG raise launched guard_events mkdir_events].
  simpl in Hlive |- *. rewrite Hinstall, Hmkdir.
  destruct (thread_running r a) eqn:Hr; simpl in Hlive |- *;
    [rewrite Hlive|];
    (destruct dbp as [[|ch p]|]; simpl;
     rewrite <- ?app_assoc; simpl; rewrite <- ?app_assoc; reflexivity).
Qed.

Lemma stop_dynamodb_none (w : World) :
  _thread (self w) = None -> stop_dynamodb r w = (Ok tt, w).
Proof.
  intros H. unfold stop_dynamodb, bind, get_self. rewrite H. reflexivity.
Qed.

Local Opaque retry_from.

Lemma stop_dynamodb_first_phase (w : World) (t : ShellCommandThread) (k : nat) :
  _thread (self w) = Some t ->
  shutdown_fails r = false ->
  join_fails r = false ->
  k < 10 ->
  (forall j, j < k -> port_open r (polls w + j) = true) ->
  port_open r (polls w + k) = false ->
  stop_dynamodb r w
  = (Ok tt,
     polled (stopping w t)
       (rounds [EvPortCheck (port (self w)); EvSleep 800] k
        ++ [EvPortCheck (port (self w))]) (S k)).
Proof.
  intros Ht Hsh Hjoin Hk Hopen Hclosed.
  destruct w as [s tr a b c d]. simpl in *.
  cbv [stop_dynamodb bind get_self modify_self emit shutdown join call ret raise
       try_except wait_for_port_closed retry stopping].
  simpl. rewrite Ht, Hsh, Hjoin. simpl.
  rewrite (retry_port_closes r _ _ k); [| exact Hk | exact Hopen | exact Hclosed].
  f_equal. unfold polled. destruct s. same_world.
Qed.

Lemma stop_dynamodb_forced (w : World) (t : ShellCommandThread) (pid : Z) :
  _thread (self w) = Some t ->
  process t = Some pid ->
  shutdown_fails r = false ->
  join_fails r = false ->
  ps_fails r = false ->
  no_such_process r = false ->
  (forall j, j < 10 -> port_open r (polls w + j) = true) ->
  stop_dynamodb r w
  = wait_for_port_closed r (port (self w)) 500 8
      (polled (stopping w t)
         (rounds [EvPortCheck (port (self w)); EvSleep 800] 10
          ++ forced_kill_events r pid) 10).
Proof.
  intros Ht Hpid Hsh Hjoin Hps Hlookup Hopen.
  destruct w as [s tr a b c d]. simpl in *.
  cbv [stop_dynamodb bind get_self modify_self emit shutdown join call ret raise
       try_except wait_for_port_closed retry stopping run_safe LOG].
  simpl. rewrite Ht, Hsh, Hjoin. simpl.
  rewrite retry_port_exhausted; [| exact Hopen].
  rewrite Hps, Hpid. simpl. rewrite Hlookup.
  unfold forced_kill_events, polled.
  destruct (terminate_fails r), (kill_fails r); simpl;
    (f_equal; destruct s; same_world).
Qed.

End Procedures.

(** ** Counting in traces *)

Lemma trace_probed (w : World) (evs : list event) (k : nat) :
  trace (probed w evs k) = trace w ++ evs.
Proof. reflexivity. Qed.

Lemma trace_polled (w : World) (evs : list event) (k : nat) :
  trace (polled w evs k) = trace w ++ evs.
Proof. reflexivity. Qed.

Lemma trace_stopping (w : World) (t : ShellCommandThread) :
  trace (stopping w t) = trace w ++ [EvAutoRestart false; EvShutdown; EvJoin 10000].
Proof. reflexivity. Qed.

Lemma actions_app (l1 l2 : list event) : actions (l1 ++ l2) = actions l1 ++ actions l2.
Proof. unfold actions. apply filter_app. Qed.

Lemma spawns_app (l1 l2 : list event) : spawns (l1 ++ l2) = spawns l1 + spawns l2.
Proof. unfold spawns. rewrite filter_app. apply length_app. Qed.

Lemma actions_failed_probes (r : Runtime) (k : nat) :
  forall n, actions (failed_probes r n k) = rounds [EvProbe; EvSleep 400] k.
Proof.
  induction k as [|k IH]; intros n; [reflexivity|].
  simpl failed_probes.
  change (EvSleep 400 :: failed_probes r (S n) k)
    with ([EvSleep 400] ++ failed_probes r (S n) k).
  rewrite !actions_app, IH. destruct (list_tables r n); reflexivity.
Qed.

Lemma spawns_failed_probes (r : Runtime) (k : nat) :
  forall n, spawns (failed_probes r n k) = 0.
Proof.
  induction k as [|k IH]; intros n; [reflexivity|].
  simpl failed_probes.
  change (EvSleep 400 :: failed_probes r (S n) k)
    with ([EvSleep 400] ++ failed_probes r (S n) k).
  rewrite !spawns_app, IH. destruct (list_tables r n); reflexivity.
Qed.

Lemma spawns_launched (h : Host) (r : Runtime) (w : World) :
  spawns (trace (launched h r w)) = S (spawns (trace w)).
Proof.
  unfold launched, guard_events, mkdir_events. simpl trace.
  rewrite !spawns_app.
  destruct (thread_running r (running_calls w));
    destruct (db_path (self w)) as [p|]; try destruct (truthy (Some p));
    unfold spawns; simpl; lia.
Qed.

Lemma actions_poll_rounds (p sl : Z) (k : nat) :
  actions (rounds [EvPortCheck p; EvSleep sl] k) = rounds [EvPortCheck p; EvSleep sl] k.
Proof.
  induction k as [|k IH]; [reflexivity|]. simpl. unfold actions in *. simpl.
  rewrite IH. reflexivity.
Qed.

Lemma forced_poll_rounds (p sl : Z) (k : nat) :
  filter is_forced (rounds [EvPortCheck p; EvSleep sl] k) = [].
Proof. induction k as [|k IH]; [reflexivity|]. simpl. exact IH. Qed.

Lemma actions_forced_kill_events (r : Runtime) (pid : Z) :
  actions (forced_kill_events r pid)
  = [EvProcessLookup pid; EvTerminate pid; EvKill pid].
Proof.
  unfold forced_kill_events.
  destruct (terminate_fails r), (kill_fails r); reflexivity.
Qed.

(** * The command line and the constructor *)

(** Where the flags of the data path are, case by case. *)
Lemma data_path_cases (h : Host) (s : DynamodbServer) :
  plain_db_path s = true ->
  (In "-inMemory" (_create_shell_command h s) <-> db_path s = None)
  /\ (forall X, has_pair "-dbPath" X (_create_shell_command h s)
                <-> db_path s = Some X /\ X <> "")
  /\ (In "-dbPath" (_create_shell_command h s)
      <-> exists X, db_path s = Some X /\ X <> "")
  /\ ~ (In "-inMemory" (_create_shell_command h s)
        /\ In "-dbPath" (_create_shell_command h s)).
Proof.
  intros Hplain.
  assert (Hp : forall p, db_path s = Some p -> option_like p = false)
    by (intros p; apply plain_db_path_option_like; exact Hplain).
  command_cases h s p Ep;
    try (specialize (Hp _ eq_refl));
    (split; [|split; [|split]];
    [ split; intros H;
      [ first [reflexivity | solve [exfalso; refute_in H]]
      | first [discriminate H | solve [pick_in]] ]
    | intros X; split; intros H;
      [ first [solve [exfalso; refute_pair H] | solve [read_pair H]]
      | destruct H as [E NE];
        first [ discriminate E
              | injection E as <-;
                first [solve [exfalso; apply NE; reflexivity] | solve [pick_pair]] ] ]
    | split; intros H;
      [ first [ solve [eexists; split; [reflexivity | discriminate]]
              | solve [exfalso; refute_in H] ]
      | destruct H as [X [E NE]];
        first [ discriminate E
              | injection E as <-;
                first [solve [exfalso; apply NE; reflexivity] | solve [pick_in]] ] ]
    | intros [H1 H2]; first [solve [refute_in H1] | solve [refute_in H2]] ]).
Qed.

(** C3, as amended.  For a server whose data path does not begin with a
    dash, the command line contains [-inMemory] exactly when [db_path] is
    [None]; when it contains [-dbPath] followed by [X], [db_path] is [X];
    a [db_path] that is a non-empty string [X] puts [-dbPath] followed by
    [X] on the command line; and the two flags never occur together. *)
Theorem data_path_flags (h : Host) (s : DynamodbServer) :
  plain_db_path s = true ->
  (In "-inMemory" (_create_shell_command h s) <-> db_path s = None)
  /\ (forall X, has_pair "-dbPath" X (_create_shell_command h s) -> db_path s = Some X)
  /\ (forall X, db_path s = Some X -> X <> "" ->
                has_pair "-dbPath" X (_create_shell_command h s))
  /\ ~ (In "-inMemory" (_create_shell_command h s)
        /\ In "-dbPath" (_create_shell_command h s)).
Proof.
  intros Hplain.
  destruct (data_path_cases h s Hplain) as [Hmem [Hpair [_ Hboth]]].
  split; [exact Hmem|]. split; [|split; [|exact Hboth]].
  - intros X H. apply Hpair in H. destruct H as [H _]. exact H.
  - intros X HX Hne. apply Hpair. split; assumption.
Qed.

Lemma data_path_flags_witness :
  plain_db_path example_server = true
  /\ has_pair "-dbPath" "/var/lib/ddb" (_create_shell_command example_host example_server)
  /\ ~ In "-inMemory" (_create_shell_command example_host example_server).
Proof.
  split; [reflexivity|].
  destruct (data_path_flags example_host example_server eq_refl) as [Hmem [_ [Hpair _]]].
  split.
  - apply Hpair; [reflexivity | discriminate].
  - intros H. apply Hmem in H. discriminate H.
Defined.

(** C3, as stated, fails for the empty data path: a server built with
    [db_path=""] on a host without a data directory keeps [db_path = ""],
    which is not [None], and its command line has neither [-dbPath ""] nor
    [-inMemory]. *)
Lemma empty_db_path_has_neither_flag :
  let s := __init__ example_host None "localhost" (Some "") in
  db_path s = Some ""
  /\ in_memory s = false
  /\ ~ has_pair "-dbPath" "" (_create_shell_command example_host s)
  /\ ~ In "-dbPath" (_create_shell_command example_host s)
  /\ ~ In "-inMemory" (_create_shell_command example_host s).
Proof.
  simpl. repeat split; try reflexivity; intros H; vm_compute in H;
    repeat (destruct H as [H|H]; [first [discriminate H | destruct H; discriminate] |]);
    exact H.
Qed.

(** C4.  Each of [-delayTransientStatuses], [-optimizeDbBeforeStartup] and
    [-sharedDb] is in the command line exactly when its own attribute is
    true, whatever the other two attributes, the data path, the port and
    the host are. *)
Theorem switches_follow_their_fields (h : Host) (s : DynamodbServer) :
  plain_db_path s = true ->
  (In "-delayTransientStatuses" (_create_shell_command h s)
     <-> delay_transient_statuses s = true)
  /\ (In "-optimizeDbBeforeStartup" (_create_shell_command h s)
     <-> optimize_db_before_startup s = true)
  /\ (In "-sharedDb" (_create_shell_command h s) <-> share_db s = true).
Proof.
  intros Hplain.
  assert (Hp : forall p, db_path s = Some p -> option_like p = false)
    by (intros p; apply plain_db_path_option_like; exact Hplain).
  command_cases h s p Ep;
    try (specialize (Hp _ eq_refl));
    (repeat split; intros H; try reflexivity; try discriminate H;
     first [ solve [exfalso; refute_in H] | solve [pick_in] ]).
Qed.

Lemma switches_follow_their_fields_witness :
  plain_db_path example_server = true
  /\ (In "-sharedDb" (_create_shell_command example_host example_server)
      <-> share_db example_server = true).
Proof.
  split; [reflexivity|].
  exact (proj2 (proj2 (switches_follow_their_fields example_host example_server eq_refl))).
Defined.

(** C9.  The command line contains [-XX:UseSVE=0] exactly when the
    architecture of the host is [arm64]; the options of the Java machine
    are what the table of workarounds gives for the architecture; and
    [-port] followed by the port of the server is always there. *)
Theorem sve_flag_and_port_flag (h : Host) (s : DynamodbServer) :
  (plain_db_path s = true ->
   (In "-XX:UseSVE=0" (_create_shell_command h s) <-> get_arch h = arm64))
  /\ _get_java_vm_options h = workaround_flags (get_arch h)
  /\ has_pair "-port" (str (port s)) (_create_shell_command h s).
Proof.
  split; [|split].
  - apply in_sve_flag.
  - apply vm_options_lookup.
  - apply port_flag_present.
Qed.

Lemma sve_flag_and_port_flag_witness :
  plain_db_path example_server = true
  /\ In "-XX:UseSVE=0" (_create_shell_command example_host example_server)
  /\ has_pair "-port" "4566" (_create_shell_command example_host example_server).
Proof.
  split; [reflexivity|].
  destruct (sve_flag_and_port_flag example_host example_server) as [Hsve [_ Hport]].
  split; [apply (Hsve eq_refl); reflexivity | exact Hport].
Defined.

(** C8.  When [DYNAMODB_IN_MEMORY] is true the constructed server has
    [db_path = None], whatever the [db_path] argument, the data directory,
    the persistence settings and the temporary directory are; and for every
    constructed server [in_memory] is true exactly when [db_path] is
    [None]. *)
Theorem in_memory_takes_precedence (h : Host) (port_arg : option Z) (host_arg : string)
    (db_path_arg : option string) :
  (is_env_true h "DYNAMODB_IN_MEMORY" = true ->
   db_path (__init__ h port_arg host_arg db_path_arg) = None)
  /\ (in_memory (__init__ h port_arg host_arg db_path_arg) = true
      <-> db_path (__init__ h port_arg host_arg db_path_arg) = None).
Proof.
  split.
  - intros Henv. simpl. unfold init_db_path. rewrite Henv. reflexivity.
  - unfold in_memory.
    destruct (db_path (__init__ h port_arg host_arg db_path_arg));
      split; intros H; first [reflexivity | discriminate H].
Qed.

Lemma in_memory_takes_precedence_witness :
  is_env_true in_memory_host "DYNAMODB_IN_MEMORY" = true
  /\ db_path (__init__ in_memory_host (Some 4566%Z) "localhost" (Some "/var/lib/ddb")) = None.
Proof.
  split; [reflexivity|].
  apply (proj1 (in_memory_takes_precedence in_memory_host (Some 4566%Z) "localhost"
                  (Some "/var/lib/ddb"))).
  reflexivity.
Defined.

(** C10.  A port argument that is omitted, [None] or [0] makes the
    constructor take the port of [get_free_tcp_port()], and the three give
    the same server; as that helper hands out a port other than [0], the
    port of a constructed server is [0] for no port argument at all. *)
Theorem falsy_port_takes_free_port (h : Host) (port_arg : option Z) (host_arg : string)
    (db_path_arg : option string) :
  (port_arg = None \/ port_arg = Some 0%Z ->
   port (__init__ h port_arg host_arg db_path_arg) = get_free_tcp_port h)
  /\ __init__ h (Some 0%Z) host_arg db_path_arg = __init__ h None host_arg db_path_arg
  /\ (get_free_tcp_port h <> 0%Z ->
      port (__init__ h port_arg host_arg db_path_arg) <> 0%Z).
Proof.
  split; [|split].
  - intros [->| ->]; reflexivity.
  - reflexivity.
  - intros Hfree. destruct port_arg as [n|]; simpl; [|exact Hfree].
    destruct (Z.eqb_spec n 0); simpl; assumption.
Qed.

Lemma falsy_port_takes_free_port_witness :
  port (__init__ example_host (Some 0%Z) "localhost" None) = 40123%Z
  /\ port (__init__ example_host (Some 0%Z) "localhost" None) <> 0%Z.
Proof.
  destruct (falsy_port_takes_free_port example_host (Some 0%Z) "localhost" None)
    as [Hfree [_ Hnonzero]].
  split.
  - apply Hfree. right. reflexivity.
  - apply Hnonzero. simpl. lia.
Defined.

(** * Start *)

(** C1.  When the process is running and passes the health check,
    [start_dynamodb] returns [True] at once: the object is untouched and
    the two checks are all that is written to the trace.  Hence two calls
    in a row, the first on a server that is not up and whose child answers
    one of the ten probes, the second finding it running and healthy: both
    return [True], the first spawns exactly one process and the second
    spawns none. *)
Theorem start_dynamodb_idempotent (h : Host) (r : Runtime) :
  (forall w,
     liveness r w = true ->
     exists w',
       start_dynamodb h r w = (Ok true, w')
       /\ self w' = self w
       /\ trace w' = trace w ++ [EvIsRunning; EvIsUp]
       /\ probes w' = probes w /\ polls w' = polls w)
  /\ (forall w k,
        liveness r w = false ->
        install_fails r = false ->
        mkdir_fails r = false ->
        k < 10 ->
        (forall j, j < k -> passes (list_tables r (probes w + j)) = false) ->
        passes (list_tables r (probes w + k)) = true ->
        liveness r (snd (start_dynamodb h r w)) = true ->
        exists w1 w2,
          start_dynamodb h r w = (Ok true, w1)
          /\ start_dynamodb h r w1 = (Ok true, w2)
          /\ spawns (trace w1) = S (spawns (trace w))
          /\ spawns (trace w2) = S (spawns (trace w))
          /\ self w2 = self w1).
Proof.
  split.
  - intros w Hlive. eexists. split; [apply start_dynamodb_running; exact Hlive|].
    simpl. repeat split.
  - intros w k Hdown Hinstall Hmkdir Hk Hfail Hpass Hup.
    assert (E1 : start_dynamodb h r w
                 = (Ok true,
                    probed (launched h r w)
                      (failed_probes r (probes w) k ++ [EvProbe]) (S k))).
    { rewrite start_dynamodb_launch by assumption.
      unfold wait_for_dynamodb, retry.
      rewrite (retry_probe_passes r k); [reflexivity | exact Hk | exact Hfail | exact Hpass]. }
    rewrite E1 in Hup. simpl snd in Hup.
    eexists. eexists. split; [exact E1|].
    split; [apply start_dynamodb_running; exact Hup|].
    assert (Hs : spawns (trace (probed (launched h r w)
                                  (failed_probes r (probes w) k ++ [EvProbe]) (S k)))
                 = S (spawns (trace w))).
    { rewrite trace_probed, !spawns_app, spawns_failed_probes, spawns_launched.
      unfold spawns. simpl. lia. }
    split; [exact Hs|]. split; [|reflexivity].
    match goal with
    | |- spawns (trace {| self := _; trace := ?t ++ ?e; running_calls := _;
                          up_calls := _; probes := _; polls := _ |}) = _ =>
        change (spawns (t ++ e) = S (spawns (trace w)))
    end.
    rewrite spawns_app, Hs. unfold spawns. simpl. lia.
Qed.

Lemma start_dynamodb_idempotent_witness :
  exists w1 w2,
    start_dynamodb example_host healthy_runtime (fresh_world example_server) = (Ok true, w1)
    /\ start_dynamodb example_host healthy_runtime w1 = (Ok true, w2)
    /\ spawns (trace w1) = 1
    /\ spawns (trace w2) = 1
    /\ self w2 = self w1.
Proof.
  apply (proj2 (start_dynamodb_idempotent example_host healthy_runtime)
           (fresh_world example_server) 2).
  - reflexivity.
  - reflexivity.
  - reflexivity.
  - lia.
  - intros j Hj. destruct j as [|[|j]]; [reflexivity | reflexivity | lia].
  - reflexivity.
  - vm_compute. reflexivity.
Defined.

(** C7.  When none of ten probes in a row passes, [wait_for_dynamodb] has
    made exactly ten probes, each followed by a pause of 0.4 seconds, and
    raises the error of the last probe; [start_dynamodb], once it has
    started the thread, raises the same error to its caller. *)
Theorem wait_for_dynamodb_gives_up (h : Host) (r : Runtime) (w : World) :
  (forall j, j < 10 -> passes (list_tables r (probes w + j)) = false) ->
  (exists w',
     wait_for_dynamodb r w = (Raise (failure_of (list_tables r (probes w + 9))), w')
     /\ probes w' = probes w + 10
     /\ actions (trace w') = actions (trace w) ++ rounds [EvProbe; EvSleep 400] 10)
  /\ (liveness r w = false ->
      install_fails r = false ->
      mkdir_fails r = false ->
      fst (start_dynamodb h r w) = Raise (failure_of (list_tables r (probes w + 9)))
      /\ probes (snd (start_dynamodb h r w)) = probes w + 10
      /\ spawns (trace (snd (start_dynamodb h r w))) = S (spawns (trace w))).
Proof.
  intros Hfail. split.
  - eexists. split.
    + unfold wait_for_dynamodb, retry. rewrite retry_probe_exhausted by exact Hfail.
      reflexivity.
    + split; [reflexivity|].
      rewrite trace_probed, actions_app, actions_failed_probes.
      reflexivity.
  - intros Hdown Hinstall Hmkdir.
    rewrite start_dynamodb_launch by assumption.
    unfold wait_for_dynamodb, retry.
    rewrite retry_probe_exhausted by exact Hfail.
    cbn [fst snd]. split; [reflexivity|]. split; [reflexivity|].
    rewrite trace_probed, spawns_app, spawns_failed_probes, spawns_launched. lia.
Qed.

Lemma wait_for_dynamodb_gives_up_witness :
  fst (start_dynamodb example_host stubborn_runtime (fresh_world example_server))
  = Raise TypeError
  /\ probes (snd (start_dynamodb example_host stubborn_runtime (fresh_world example_server)))
     = 10.
Proof.
  assert (H : forall j, j < 10 ->
              passes (list_tables stubborn_runtime
                        (probes (fresh_world example_server) + j)) = false)
    by (intros j _; reflexivity).
  destruct (proj2 (wait_for_dynamodb_gives_up example_host stubborn_runtime
                     (fresh_world example_server) H) eq_refl eq_refl eq_refl)
    as [H1 [H2 _]].
  split; [exact H1 | exact H2].
Defined.

(** * Stop *)

Section Stop.

Variable r : Runtime.
Variable w : World.

(** The stop phases as equations on the whole outcome. *)
Lemma stop_dynamodb_second_phase (t : ShellCommandThread) (pid : Z) (k : nat) :
  _thread (self w) = Some t ->
  process t = Some pid ->
  shutdown_fails r = false ->
  join_fails r = false ->
  ps_fails r = false ->
  no_such_process r = false ->
  (forall j, j < 10 -> port_open r (polls w + j) = true) ->
  k < 8 ->
  (forall j, j < k -> port_open r (polls w + 10 + j) = true) ->
  port_open r (polls w + 10 + k) = false ->
  stop_dynamodb r w
  = (Ok tt,
     polled
       (polled (stopping w t)
          (rounds [EvPortCheck (port (self w)); EvSleep 800] 10
           ++ forced_kill_events r pid) 10)
       (rounds [EvPortCheck (port (self w)); EvSleep 500] k
        ++ [EvPortCheck (port (self w))]) (S k)).
Proof.
  intros Ht Hpid Hsh Hjoin Hps Hlookup Hopen Hk Hopen2 Hclosed.
  rewrite (stop_dynamodb_forced r w t pid) by assumption.
  unfold wait_for_port_closed, retry.
  rewrite (retry_port_closes r _ _ k);
    [reflexivity | exact Hk | exact Hopen2 | exact Hclosed].
Qed.

Lemma stop_dynamodb_still_open (t : ShellCommandThread) (pid : Z) :
  _thread (self w) = Some t ->
  process t = Some pid ->
  shutdown_fails r = false ->
  join_fails r = false ->
  ps_fails r = false ->
  no_such_process r = false ->
  (forall j, j < 18 -> port_open r (polls w + j) = true) ->
  stop_dynamodb r w
  = (Raise PortNotClosed,
     polled
       (polled (stopping w t)
          (rounds [EvPortCheck (port (self w)); EvSleep 800] 10
           ++ forced_kill_events r pid) 10)
       (rounds [EvPortCheck (port (self w)); EvSleep 500] 8) 8).
Proof.
  intros Ht Hpid Hsh Hjoin Hps Hlookup Hopen.
  rewrite (stop_dynamodb_forced r w t pid); try assumption;
    [| intros j Hj; apply Hopen; lia].
  unfold wait_for_port_closed, retry.
  rewrite retry_port_exhausted; [reflexivity|].
  intros j Hj.
  change (port_open r (polls w + 10 + j) = true).
  rewrite <- Nat.add_assoc. apply Hopen. lia.
Qed.

End Stop.

(** C6.  Without a thread handle [stop_dynamodb] returns at once: nothing
    is raised, and neither the object nor the trace nor any counter of the
    world has changed, so no shutdown, no look at the port and no kill took
    place. *)
Theorem stop_without_handle_is_noop (r : Runtime) (w : World) :
  _thread (self w) = None ->
  stop_dynamodb r w = (Ok tt, w).
Proof. apply stop_dynamodb_none. Qed.

Lemma stop_without_handle_is_noop_witness :
  stop_dynamodb stubborn_runtime (fresh_world example_server)
  = (Ok tt, fresh_world example_server).
Proof.
  apply (stop_without_handle_is_noop stubborn_runtime (fresh_world example_server)).
  reflexivity.
Defined.

(** C5.  With a thread handle, and shutdown and join going through,
    [stop_dynamodb] switches off the restarts of the watcher, sends the
    shutdown, joins for 10 seconds and looks at the port up to 10 times,
    0.8 seconds apart.  When one of these looks finds the port closed it
    returns and no lookup, terminate or kill has been made.  When all ten
    find it open, it looks up the process of the watcher, calls terminate,
    then kill, and looks at the port again up to 8 times, 0.5 seconds
    apart.  Log lines and the listing of processes are left out of the
    sequences of the second and third part. *)
Theorem stop_dynamodb_sequence (r : Runtime) (w : World) (t : ShellCommandThread) :
  _thread (self w) = Some t ->
  shutdown_fails r = false ->
  join_fails r = false ->
  (forall k,
     k < 10 ->
     (forall j, j < k -> port_open r (polls w + j) = true) ->
     port_open r (polls w + k) = false ->
     exists w',
       stop_dynamodb r w = (Ok tt, w')
       /\ trace w' = trace w
                     ++ [EvAutoRestart false; EvShutdown; EvJoin 10000]
                     ++ rounds [EvPortCheck (port (self w)); EvSleep 800] k
                     ++ [EvPortCheck (port (self w))]
       /\ filter is_forced (trace w') = filter is_forced (trace w)
       /\ _thread (self w') = Some {| auto_restart := false; process := process t |})
  /\ (forall pid k,
        process t = Some pid ->
        ps_fails r = false ->
        no_such_process r = false ->
        (forall j, j < 10 -> port_open r (polls w + j) = true) ->
        k < 8 ->
        (forall j, j < k -> port_open r (polls w + 10 + j) = true) ->
        port_open r (polls w + 10 + k) = false ->
        exists w',
          stop_dynamodb r w = (Ok tt, w')
          /\ actions (trace w')
             = actions (trace w)
               ++ [EvAutoRestart false; EvShutdown; EvJoin 10000]
               ++ rounds [EvPortCheck (port (self w)); EvSleep 800] 10
               ++ [EvProcessLookup pid; EvTerminate pid; EvKill pid]
               ++ rounds [EvPortCheck (port (self w)); EvSleep 500] k
               ++ [EvPortCheck (port (self w))])
  /\ (forall pid,
        process t = Some pid ->
        ps_fails r = false ->
        no_such_process r = false ->
        (forall j, j < 18 -> port_open r (polls w + j) = true) ->
        exists w',
          stop_dynamodb r w = (Raise PortNotClosed, w')
          /\ actions (trace w')
             = actions (trace w)
               ++ [EvAutoRestart false; EvShutdown; EvJoin 10000]
               ++ rounds [EvPortCheck (port (self w)); EvSleep 800] 10
               ++ [EvProcessLookup pid; EvTerminate pid; EvKill pid]
               ++ rounds [EvPortCheck (port (self w)); EvSleep 500] 8).
Proof.
  intros Ht Hsh Hjoin. split; [|split].
  - intros k Hk Hopen Hclosed. eexists. split.
    + apply (stop_dynamodb_first_phase r w t k); assumption.
    + rewrite trace_polled, trace_stopping. split.
      * rewrite <- app_assoc. reflexivity.
      * split; [|reflexivity].
        rewrite !filter_app, forced_poll_rounds. simpl.
        rewrite !app_nil_r. reflexivity.
  - intros pid k Hpid Hps Hlookup Hopen Hk Hopen2 Hclosed. eexists. split.
    + apply (stop_dynamodb_second_phase r w t pid k); assumption.
    + rewrite !trace_polled, trace_stopping, !actions_app.
      rewrite !actions_poll_rounds, actions_forced_kill_events.
      rewrite <- !app_assoc. reflexivity.
  - intros pid Hpid Hps Hlookup Hopen. eexists. split.
    + apply (stop_dynamodb_still_open r w t pid); assumption.
    + rewrite !trace_polled, trace_stopping, !actions_app.
      rewrite !actions_poll_rounds, actions_forced_kill_events.
      rewrite <- !app_assoc. reflexivity.
Qed.

Lemma stop_dynamodb_sequence_witness :
  (exists w',
     stop_dynamodb healthy_runtime started_world = (Ok tt, w')
     /\ trace w' = [EvAutoRestart false; EvShutdown; EvJoin 10000; EvPortCheck 4566]
     /\ filter is_forced (trace w') = [])
  /\ (exists w',
        stop_dynamodb slow_runtime started_world = (Ok tt, w')
        /\ actions (trace w')
           = [EvAutoRestart false; EvShutdown; EvJoin 10000]
             ++ rounds [EvPortCheck 4566; EvSleep 800] 10
             ++ [EvProcessLookup 4711; EvTerminate 4711; EvKill 4711]
             ++ rounds [EvPortCheck 4566; EvSleep 500] 2
             ++ [EvPortCheck 4566]).
Proof.
  split.
  - destruct (proj1 (stop_dynamodb_sequence healthy_runtime started_world
                       {| auto_restart := true; process := Some 4711%Z |}
                       eq_refl eq_refl eq_refl) 0) as [w' [E [Htr [Hf _]]]].
    + lia.
    + intros j Hj. lia.
    + reflexivity.
    + exists w'. split; [exact E|]. split; [exact Htr | exact Hf].
  - destruct (proj1 (proj2 (stop_dynamodb_sequence slow_runtime started_world
                       {| auto_restart := true; process := Some 4711%Z |}
                       eq_refl eq_refl eq_refl)) 4711%Z 2) as [w' [E Htr]].
    + reflexivity.
    + reflexivity.
    + reflexivity.
    + intros j Hj. simpl. apply Nat.ltb_lt. lia.
    + lia.
    + intros j Hj. simpl. apply Nat.ltb_lt. lia.
    + reflexivity.
    + exists w'. split; [exact E | exact Htr].
Defined.

(** C2, as amended.  [stop_dynamodb] raises nothing when there is no
    thread handle, and, shutdown and join having gone through, when the
    port is found closed in the first phase, or when it is found closed by
    one of the 8 looks after the forced kill; this holds whether terminate
    and kill succeed or fail, their errors never reach the caller.  When the
    port is still open at the last of the 8 looks, the error of the port
    waiter is raised to the caller. *)
Theorem stop_dynamodb_raises_when_port_stays_open (r : Runtime) (w : World) :
  (_thread (self w) = None -> fst (stop_dynamodb r w) = Ok tt)
  /\ (forall t k,
        _thread (self w) = Some t ->
        shutdown_fails r = false ->
        join_fails r = false ->
        k < 10 ->
        (forall j, j < k -> port_open r (polls w + j) = true) ->
        port_open r (polls w + k) = false ->
        fst (stop_dynamodb r w) = Ok tt)
  /\ (forall t pid k,
        _thread (self w) = Some t ->
        process t = Some pid ->
        shutdown_fails r = false ->
        join_fails r = false ->
        ps_fails r = false ->
        no_such_process r = false ->
        (forall j, j < 10 -> port_open r (polls w + j) = true) ->
        k < 8 ->
        (forall j, j < k -> port_open r (polls w + 10 + j) = true) ->
        port_open r (polls w + 10 + k) = false ->
        fst (stop_dynamodb r w) = Ok tt)
  /\ (forall t pid,
        _thread (self w) = Some t ->
        process t = Some pid ->
        shutdown_fails r = false ->
        join_fails r = false ->
        ps_fails r = false ->
        no_such_process r = false ->
        (forall j, j < 18 -> port_open r (polls w + j) = true) ->
        fst (stop_dynamodb r w) = Raise PortNotClosed).
Proof.
  split; [|split; [|split]].
  - intros Hnone. rewrite stop_dynamodb_none by exact Hnone. reflexivity.
  - intros t k Ht Hsh Hjoin Hk Hopen Hclosed.
    rewrite (stop_dynamodb_first_phase r w t k) by assumption. reflexivity.
  - intros t pid k Ht Hpid Hsh Hjoin Hps Hlookup Hopen Hk Hopen2 Hclosed.
    rewrite (stop_dynamodb_second_phase r w t pid k) by assumption. reflexivity.
  - intros t pid Ht Hpid Hsh Hjoin Hps Hlookup Hopen.
    rewrite (stop_dynamodb_still_open r w t pid) by assumption. reflexivity.
Qed.

Lemma stop_dynamodb_raises_when_port_stays_open_witness :
  fst (stop_dynamodb slow_runtime started_world) = Ok tt
  /\ fst (stop_dynamodb stubborn_runtime started_world) = Raise PortNotClosed.
Proof.
  split.
  - apply (proj1 (proj2 (proj2 (stop_dynamodb_raises_when_port_stays_open
                                  slow_runtime started_world)))
             {| auto_restart := true; process := Some 4711%Z |} 4711%Z 2);
      try reflexivity; try lia;
      intros j Hj; simpl; apply Nat.ltb_lt; lia.
  - apply (proj2 (proj2 (proj2 (stop_dynamodb_raises_when_port_stays_open
                                  stubborn_runtime started_world)))
             {| auto_restart := true; process := Some 4711%Z |} 4711%Z);
      try reflexivity.
Defined.

(** C2, as stated, fails: on a running server whose port is never
    released, shutdown, join, the lookup, terminate and kill are all made,
    and the last look at the port raises to the caller. *)
Lemma stop_dynamodb_can_raise :
  fst (stop_dynamodb stubborn_runtime started_world) = Raise PortNotClosed
  /\ actions (trace (snd (stop_dynamodb stubborn_runtime started_world)))
     = [EvAutoRestart false; EvShutdown; EvJoin 10000]
       ++ rounds [EvPortCheck 4566; EvSleep 800] 10
       ++ [EvProcessLookup 4711; EvTerminate 4711; EvKill 4711]
       ++ rounds [EvPortCheck 4566; EvSleep 500] 8.
Proof. split; vm_compute; reflexivity. Qed.

(** * The rest of the module *)

(** ** More on the constructor and the command line *)

Lemma append_nonempty (s : string) (c : ascii) (t : string) :
  ((s ++ String c t)%string =? "") = false.
Proof. destruct s; reflexivity. Qed.

Lemma int_of_str_str (z : Z) : int_of_str (str z) = Some z.
Proof.
  unfold int_of_str, str.
  rewrite NilZero.isi.
  - simpl. rewrite DecimalZ.of_to. reflexivity.
  - destruct z; simpl; try discriminate.
    intros H. injection H as H. revert H. apply Unsigned.to_uint_nonnil.
  - destruct z; simpl; try discriminate.
    intros H. injection H as H. revert H. apply Unsigned.to_uint_nonnil.
Qed.

Ltac read_port_pair H :=
  let H1 := fresh "H" in
  let H2 := fresh "H" in
  simpl in H;
  repeat (destruct H as [[H1 H2]|H];
          [first [ solve [refute_eq H1]
                 | subst; apply int_of_str_str ] |]);
  try contradiction.

(** The switches, the heap option and the absence of [-cors], for a server
    whose data path does not begin with a dash. *)
Lemma in_options (h : Host) (s : DynamodbServer) :
  plain_db_path s = true ->
  (In "-delayTransientStatuses" (_create_shell_command h s)
     <-> delay_transient_statuses s = true)
  /\ (In "-optimizeDbBeforeStartup" (_create_shell_command h s)
     <-> optimize_db_before_startup s = true)
  /\ (In "-sharedDb" (_create_shell_command h s) <-> share_db s = true)
  /\ ~ In "-cors" (_create_shell_command h s)
  /\ (forall v, has_pair "-port" v (_create_shell_command h s) ->
                int_of_str v = Some (port s)).
Proof.
  intros Hplain.
  assert (Hp : forall p, db_path s = Some p -> option_like p = false)
    by (intros p; apply plain_db_path_option_like; exact Hplain).
  command_cases h s p Ep;
    try (specialize (Hp _ eq_refl));
    (split; [|split; [|split; [|split]]];
     [ split; intros H; try reflexivity; try discriminate H;
       first [ solve [exfalso; refute_in H] | solve [pick_in] ]
     | split; intros H; try reflexivity; try discriminate H;
       first [ solve [exfalso; refute_in H] | solve [pick_in] ]
     | split; intros H; try reflexivity; try discriminate H;
       first [ solve [exfalso; refute_in H] | solve [pick_in] ]
     | intros H; solve [refute_in H]
     | intros v H; solve [read_port_pair H] ]).
Qed.

Lemma heap_option_present (h : Host) (s : DynamodbServer) :
  In ("-Xmx" ++ heap_size s)%string (_create_shell_command h s).
Proof.
  rewrite create_shell_command_shape. apply in_or_app. left.
  unfold java_of. apply in_or_app. right. apply in_or_app. right.
  left. reflexivity.
Qed.

(** ** Rules for bounds and for properties that are kept *)

Lemma cost_app (wt : event -> N) (l1 l2 : list event) :
  cost wt (l1 ++ l2) = (cost wt l1 + cost wt l2)%N.
Proof.
  induction l1 as [|e l1 IH]; [reflexivity|].
  simpl. rewrite IH. lia.
Qed.

Section Rules.

Variable wt : event -> N.

Lemma bounded_weaken {A : Type} (m : M A) (c c' : N) :
  bounded wt m c -> (c <= c')%N -> bounded wt m c'.
Proof.
  intros Hm Hc w. destruct (Hm w) as [evs [E Hle]].
  exists evs. split; [exact E | lia].
Qed.

Lemma bounded_max_l {A : Type} (m : M A) (c1 c2 : N) :
  bounded wt m c1 -> bounded wt m (N.max c1 c2).
Proof. intros H. apply (bounded_weaken m c1); [exact H | lia]. Qed.

Lemma bounded_max_r {A : Type} (m : M A) (c1 c2 : N) :
  bounded wt m c2 -> bounded wt m (N.max c1 c2).
Proof. intros H. apply (bounded_weaken m c2); [exact H | lia]. Qed.

Lemma bounded_ret {A : Type} (a : A) : bounded wt (ret a) 0.
Proof. intros w. exists []. simpl. rewrite app_nil_r. split; [reflexivity | lia]. Qed.

Lemma bounded_raise {A : Type} (e : exn) : bounded wt (@raise A e) 0.
Proof. intros w. exists []. simpl. rewrite app_nil_r. split; [reflexivity | lia]. Qed.

Lemma bounded_get_self : bounded wt get_self 0.
Proof. intros w. exists []. simpl. rewrite app_nil_r. split; [reflexivity | lia]. Qed.

Lemma bounded_modify_self (f : DynamodbServer -> DynamodbServer) :
  bounded wt (modify_self f) 0.
Proof. intros w. exists []. simpl. rewrite app_nil_r. split; [reflexivity | lia]. Qed.

Lemma bounded_emit (e : event) (c : N) : wt e = c -> bounded wt (emit e) c.
Proof.
  intros <- w. exists [e]. simpl. split; [reflexivity | lia].
Qed.

Lemma bounded_bind {A B : Type} (m : M A) (k : A -> M B) (c1 c2 : N) :
  bounded wt m c1 -> (forall a, bounded wt (k a) c2) ->
  bounded wt (bind m k) (c1 + c2).
Proof.
  intros Hm Hk w. unfold bind.
  destruct (Hm w) as [evs1 [E1 H1]].
  destruct (m w) as [[a|e] w1]; simpl in E1.
  - destruct (Hk a w1) as [evs2 [E2 H2]].
    exists (evs1 ++ evs2). rewrite E2, E1, app_assoc, cost_app.
    split; [reflexivity | lia].
  - exists evs1. simpl. split; [exact E1 | lia].
Qed.

Lemma bounded_try_except {A : Type} (m : M A) (handler : exn -> M A) (c1 c2 : N) :
  bounded wt m c1 -> (forall e, bounded wt (handler e) c2) ->
  bounded wt (try_except m handler) (c1 + c2).
Proof.
  intros Hm Hh w. unfold try_except.
  destruct (Hm w) as [evs1 [E1 H1]].
  destruct (m w) as [[a|e] w1]; simpl in E1.
  - exists evs1. simpl. split; [exact E1 | lia].
  - destruct (Hh e w1) as [evs2 [E2 H2]].
    exists (evs1 ++ evs2). rewrite E2, E1, app_assoc, cost_app.
    split; [reflexivity | lia].
Qed.

Lemma bounded_retry_from (f : M unit) (sl : Z) (c cs : N) (n : nat) :
  bounded wt f c -> wt (EvSleep sl) = cs ->
  forall last, bounded wt (retry_from last f sl n) (N.of_nat n * (c + cs)).
Proof.
  intros Hf Hs. induction n as [|n IH]; intros last.
  - simpl. apply bounded_raise.
  - simpl retry_from.
    apply (bounded_weaken _ (c + (cs + N.of_nat n * (c + cs)))); [|lia].
    apply bounded_try_except; [exact Hf|].
    intros e. apply bounded_bind; [apply bounded_emit; exact Hs|].
    intros _. apply IH.
Qed.

Variable r : Runtime.

Lemma bounded_port_check (p : Z) (c : N) :
  wt (EvPortCheck p) = c -> bounded wt (port_check r p) c.
Proof.
  intros <- w. exists [EvPortCheck p]. simpl. split; [reflexivity | lia].
Qed.

Lemma bounded_probe (c : N) : wt EvProbe = c -> bounded wt (probe r) c.
Proof.
  intros <- w. exists [EvProbe]. simpl. split; [reflexivity | lia].
Qed.

Lemma bounded_is_running (c : N) : wt EvIsRunning = c -> bounded wt (is_running r) c.
Proof.
  intros <- w. exists [EvIsRunning]. simpl. split; [reflexivity | lia].
Qed.

Lemma bounded_is_up (c : N) : wt EvIsUp = c -> bounded wt (is_up r) c.
Proof.
  intros <- w. exists [EvIsUp]. simpl. split; [reflexivity | lia].
Qed.

End Rules.

Section Kept.

Variable I : DynamodbServer -> Prop.

Lemma keeps_ret {A : Type} (a : A) : keeps I (ret a).
Proof. intros w H. exact H. Qed.

Lemma keeps_raise {A : Type} (e : exn) : keeps I (@raise A e).
Proof. intros w H. exact H. Qed.

Lemma keeps_get_self : keeps I get_self.
Proof. intros w H. exact H. Qed.

Lemma keeps_emit (e : event) : keeps I (emit e).
Proof. intros w H. exact H. Qed.

Lemma keeps_modify_self (f : DynamodbServer -> DynamodbServer) :
  (forall s, I s -> I (f s)) -> keeps I (modify_self f).
Proof. intros Hf w H. apply Hf. exact H. Qed.

Lemma keeps_bind {A B : Type} (m : M A) (k : A -> M B) :
  keeps I m -> (forall a, keeps I (k a)) -> keeps I (bind m k).
Proof.
  intros Hm Hk w H. unfold bind. specialize (Hm w H).
  destruct (m w) as [[a|e] w1]; simpl in Hm |- *.
  - apply Hk. exact Hm.
  - exact Hm.
Qed.

Lemma keeps_try_except {A : Type} (m : M A) (handler : exn -> M A) :
  keeps I m -> (forall e, keeps I (handler e)) -> keeps I (try_except m handler).
Proof.
  intros Hm Hh w H. unfold try_except. specialize (Hm w H).
  destruct (m w) as [[a|e] w1]; simpl in Hm |- *.
  - exact Hm.
  - apply Hh. exact Hm.
Qed.

Lemma keeps_retry_from (f : M unit) (sl : Z) (n : nat) :
  keeps I f -> forall last, keeps I (retry_from last f sl n).
Proof.
  intros Hf. induction n as [|n IH]; intros last.
  - apply keeps_raise.
  - simpl retry_from. apply keeps_try_except; [exact Hf|].
    intros e. apply keeps_bind; [apply keeps_emit|]. intros _. apply IH.
Qed.

Variable r : Runtime.

Lemma keeps_port_check (p : Z) : keeps I (port_check r p).
Proof. intros w H. exact H. Qed.

Lemma keeps_probe : keeps I (probe r).
Proof. intros w H. exact H. Qed.

Lemma keeps_is_running : keeps I (is_running r).
Proof. intros w H. exact H. Qed.

Lemma keeps_is_up : keeps I (is_up r).
Proof. intros w H. exact H. Qed.

End Kept.

(** Walks through a procedure with the rules above. *)
Ltac bound :=
  cbv beta;
  lazymatch goal with
  | |- bounded _ (bind _ _) _ => eapply bounded_bind; [bound | intros; bound]
  | |- bounded _ (try_except _ _) _ =>
      eapply bounded_try_except; [bound | intros; bound]
  | |- bounded _ (ret _) _ => apply bounded_ret
  | |- bounded _ (raise _) _ => apply bounded_raise
  | |- bounded _ get_self _ => apply bounded_get_self
  | |- bounded _ (modify_self _) _ => apply bounded_modify_self
  | |- bounded _ (emit _) _ => apply bounded_emit; cbn; reflexivity
  | |- bounded _ (port_check _ _) _ => apply bounded_port_check; cbn; reflexivity
  | |- bounded _ (probe _) _ => apply bounded_probe; cbn; reflexivity
  | |- bounded _ (is_running _) _ => apply bounded_is_running; cbn; reflexivity
  | |- bounded _ (is_up _) _ => apply bounded_is_up; cbn; reflexivity
  | |- bounded _ (retry_from _ _ _ _) _ =>
      eapply bounded_retry_from; [bound | cbn; reflexivity]
  | |- bounded _ (if ?b then _ else _) _ =>
      destruct b; [eapply bounded_max_l | eapply bounded_max_r]; bound
  | |- bounded _ (match ?o with Some _ => _ | None => _ end) _ =>
      destruct o; [eapply bounded_max_l | eapply bounded_max_r]; bound
  | |- bounded _ (match ?o with NoTableNames => _ | TableNames _ => _ end) _ =>
      destruct o; [eapply bounded_max_l | eapply bounded_max_r]; bound
  | |- bounded _ (LOG _) _ => unfold LOG; bound
  | |- bounded _ (call _ _ _) _ => unfold call; bound
  | |- bounded _ (run_safe _) _ => unfold run_safe; bound
  | |- bounded _ (retry _ _ _) _ => unfold retry; bound
  | |- bounded _ (wait_for_port_closed _ _ _ _) _ => unfold wait_for_port_closed; bound
  | |- bounded _ (check_dynamodb _ _) _ => unfold check_dynamodb; bound
  | |- bounded _ (wait_for_dynamodb _) _ => unfold wait_for_dynamodb; bound
  | |- bounded _ (do_start_thread _ _) _ => unfold do_start_thread; bound
  | |- bounded _ (start _ _) _ => unfold start; bound
  | |- bounded _ (shutdown _) _ => unfold shutdown; bound
  | |- bounded _ (join _ _) _ => unfold join; bound
  | |- bounded _ (start_dynamodb _ _) _ => unfold start_dynamodb; bound
  | |- bounded _ (stop_dynamodb _) _ => unfold stop_dynamodb; bound
  end.

Ltac bound_by := eapply bounded_weaken; [bound | vm_compute; discriminate].

Ltac kept :=
  cbv beta;
  lazymatch goal with
  | |- keeps _ (bind _ _) => apply keeps_bind; [kept | intros; kept]
  | |- keeps _ (try_except _ _) => apply keeps_try_except; [kept | intros; kept]
  | |- keeps _ (ret _) => apply keeps_ret
  | |- keeps _ (raise _) => apply keeps_raise
  | |- keeps _ get_self => apply keeps_get_self
  | |- keeps _ (modify_self _) => apply keeps_modify_self; intros ? ?; assumption
  | |- keeps _ (emit _) => apply keeps_emit
  | |- keeps _ (port_check _ _) => apply keeps_port_check
  | |- keeps _ (probe _) => apply keeps_probe
  | |- keeps _ (is_running _) => apply keeps_is_running
  | |- keeps _ (is_up _) => apply keeps_is_up
  | |- keeps _ (retry_from _ _ _ _) => apply keeps_retry_from; kept
  | |- keeps _ (if ?b then _ else _) => destruct b; kept
  | |- keeps _ (match ?o with Some _ => _ | None => _ end) => destruct o; kept
  | |- keeps _ (match ?o with NoTableNames => _ | TableNames _ => _ end) =>
      destruct o; kept
  | |- keeps _ (LOG _) => unfold LOG; kept
  | |- keeps _ (call _ _ _) => unfold call; kept
  | |- keeps _ (run_safe _) => unfold run_safe; kept
  | |- keeps _ (retry _ _ _) => unfold retry; kept
  | |- keeps _ (wait_for_port_closed _ _ _ _) => unfold wait_for_port_closed; kept
  | |- keeps _ (check_dynamodb _ _) => unfold check_dynamodb; kept
  | |- keeps _ (wait_for_dynamodb _) => unfold wait_for_dynamodb; kept
  | |- keeps _ (do_start_thread _ _) => unfold do_start_thread; kept
  | |- keeps _ (start _ _) => unfold start; kept
  | |- keeps _ (shutdown _) => unfold shutdown; kept
  | |- keeps _ (join _ _) => unfold join; kept
  | |- keeps _ (start_dynamodb _ _) => unfold start_dynamodb; kept
  | |- keeps _ (stop_dynamodb _) => unfold stop_dynamodb; kept
  end.


(** ** The first success of a loop *)

Lemma first_false_or_all_true (f : nat -> bool) (n : nat) :
  (exists k, k < n /\ (forall j, j < k -> f j = true) /\ f k = false)
  \/ (forall j, j < n -> f j = true).
Proof.
  induction n as [|n IH].
  - right. intros j Hj. lia.
  - destruct IH as [[k [Hk [Hbefore Hat]]]|Hall].
    + left. exists k. split; [lia|]. split; assumption.
    + destruct (f n) eqn:En.
      * right. intros j Hj. destruct (Nat.eq_dec j n) as [->|Hne];
          [exact En | apply Hall; lia].
      * left. exists n. split; [lia|]. split; assumption.
Qed.

Lemma spawns_cost (tr : list event) : N.of_nat (spawns tr) = cost spawn_weight tr.
Proof.
  induction tr as [|e tr IH]; [reflexivity|].
  cbn [cost]. rewrite <- IH.
  destruct e; unfold spawns; cbn [filter is_spawn length spawn_weight];
    rewrite ?Nat2N.inj_succ; lia.
Qed.

Lemma trace_of_bounded (wt : event -> N) {A : Type} (m : M A) (c : N) (w : World) :
  bounded wt m c -> exists evs, trace (snd (m w)) = trace w ++ evs.
Proof. intros H. destruct (H w) as [evs [E _]]. exists evs. exact E. Qed.

Section Launch.

Variable h : Host.
Variable r : Runtime.

Lemma wait_for_dynamodb_keeps_self (w : World) :
  self (snd (wait_for_dynamodb r w)) = self w.
Proof.
  assert (K : keeps (fun s => s = self w) (wait_for_dynamodb r)) by kept.
  apply K. reflexivity.
Qed.

Lemma wait_for_dynamodb_no_spawn (w : World) :
  spawns (trace (snd (wait_for_dynamodb r w))) = spawns (trace w).
Proof.
  assert (B : bounded spawn_weight (wait_for_dynamodb r) 0) by bound_by.
  destruct (B w) as [evs [E Hc]]. rewrite E, spawns_app.
  rewrite <- spawns_cost in Hc. lia.
Qed.

(** Once the guard has failed and the directory and the installer went
    through, the world after [start_dynamodb] is the one the wait leaves. *)
Lemma start_dynamodb_after_launch (w : World) :
  liveness r w = false ->
  install_fails r = false ->
  mkdir_fails r = false ->
  snd (start_dynamodb h r w) = snd (wait_for_dynamodb r (launched h r w)).
Proof.
  intros Hl Hi Hm. rewrite start_dynamodb_launch by assumption.
  destruct (wait_for_dynamodb r (launched h r w)) as [[u|e] w']; reflexivity.
Qed.

End Launch.

(** ** Dictionaries *)

Lemma dict_get_set_same (k v : string) (d : list (string * string)) :
  dict_get k (dict_set k v d) = Some v.
Proof.
  induction d as [|[k' v'] d IH]; simpl.
  - rewrite String.eqb_refl. reflexivity.
  - destruct (k' =? k) eqn:E; simpl; rewrite E; [reflexivity | exact IH].
Qed.

Lemma dict_get_set_other (k v k0 : string) (d : list (string * string)) :
  k0 <> k -> dict_get k0 (dict_set k v d) = dict_get k0 d.
Proof.
  intros Hne. induction d as [|[k' v'] d IH]; simpl.
  - apply String.eqb_neq in Hne. rewrite String.eqb_sym, Hne. reflexivity.
  - destruct (k' =? k) eqn:E; simpl.
    + apply String.eqb_eq in E. subst k'.
      apply String.eqb_neq in Hne. rewrite String.eqb_sym, Hne. reflexivity.
    + destruct (k' =? k0); [reflexivity | exact IH].
Qed.

Section StartSteps.

Variable h : Host.
Variable r : Runtime.

Local Opaque _create_shell_command.

Lemma start_dynamodb_mkdir_fails (w : World) (p : string) :
  liveness r w = false ->
  db_path (self w) = Some p ->
  p <> "" ->
  mkdir_fails r = true ->
  start_dynamodb h r w
  = (Raise OSError,
     {| self := set_stopped false (set_started false (self w));
        trace := trace w ++ guard_events r w ++ [EvMkdir p];
        running_calls := S (running_calls w);
        up_calls := if thread_running r (running_calls w)
                    then S (up_calls w) else up_calls w;
        probes := probes w; polls := polls w |}).
Proof.
  unfold liveness. intros Hlive Hp Hne Hmkdir.
  destruct p as [|ch p]; [exfalso; apply Hne; reflexivity|].
  destruct w as [s tr a b c d]. destruct s as [? ? dbp ? ? ? ? ? ? ? ?].
  simpl in Hp. subst dbp.
  cbv [start_dynamodb bind is_running is_up ret modify_self get_self
       start do_start_thread call emit LOG raise guard_events].
  cbn. cbn in Hlive. rewrite Hmkdir.
  destruct (thread_running r a); cbn in Hlive |- *; [rewrite Hlive; cbn|];
    rewrite <- ?app_assoc; reflexivity.
Qed.

Lemma start_dynamodb_install_fails (w : World) :
  liveness r w = false ->
  mkdir_fails r = false ->
  install_fails r = true ->
  start_dynamodb h r w
  = (Raise OSError,
     {| self := set_stopped false (set_started false (self w));
        trace := trace w ++ guard_events r w ++ mkdir_events (self w) ++ [EvInstall];
        running_calls := S (running_calls w);
        up_calls := if thread_running r (running_calls w)
                    then S (up_calls w) else up_calls w;
        probes := probes w; polls := polls w |}).
Proof.
  unfold liveness. intros Hlive Hmkdir Hinstall.
  destruct w as [s tr a b c d]. destruct s as [? ? dbp ? ? ? ? ? ? ? ?].
  cbv [start_dynamodb bind is_running is_up ret modify_self get_self
       start do_start_thread call emit LOG raise guard_events mkdir_events].
  cbn. cbn in Hlive. rewrite Hmkdir, Hinstall.
  destruct (thread_running r a); cbn in Hlive |- *; [rewrite Hlive; cbn|];
    (destruct dbp as [[|ch p]|]; cbn; rewrite <- ?app_assoc; cbn;
     rewrite <- ?app_assoc; reflexivity).
Qed.

Lemma start_refuses_when_started (w : World) :
  _started (self w) = true -> start h r w = (Ok false, w).
Proof.
  intros H. unfold start, bind, get_self. rewrite H. reflexivity.
Qed.

End StartSteps.

Section StopSteps.

Variable r : Runtime.

Local Opaque retry_from.

Lemma stop_dynamodb_no_process (w : World) (t : ShellCommandThread) :
  _thread (self w) = Some t ->
  process t = None ->
  shutdown_fails r = false ->
  join_fails r = false ->
  ps_fails r = false ->
  (forall j, j < 10 -> port_open r (polls w + j) = true) ->
  stop_dynamodb r w
  = (Raise AttributeError,
     polled (stopping w t)
       (rounds [EvPortCheck (port (self w)); EvSleep 800] 10
        ++ [EvPsAux; EvLog "warning"]) 10).
Proof.
  intros Ht Hpid Hsh Hjoin Hps Hopen.
  destruct w as [s tr a b c d]. simpl in *.
  cbv [stop_dynamodb bind get_self modify_self emit shutdown join call ret raise
       try_except wait_for_port_closed retry stopping run_safe LOG].
  simpl. rewrite Ht, Hsh, Hjoin. simpl.
  rewrite retry_port_exhausted; [| exact Hopen].
  rewrite Hps, Hpid. simpl.
  unfold polled. f_equal. destruct s. same_world.
Qed.

Lemma stop_dynamodb_lookup_fails (w : World) (t : ShellCommandThread) (pid : Z) :
  _thread (self w) = Some t ->
  process t = Some pid ->
  shutdown_fails r = false ->
  join_fails r = false ->
  ps_fails r = false ->
  no_such_process r = true ->
  (forall j, j < 10 -> port_open r (polls w + j) = true) ->
  stop_dynamodb r w
  = (Raise NoSuchProcess,
     polled (stopping w t)
       (rounds [EvPortCheck (port (self w)); EvSleep 800] 10
        ++ [EvPsAux; EvLog "warning"; EvLog "info"; EvProcessLookup pid]) 10).
Proof.
  intros Ht Hpid Hsh Hjoin Hps Hlookup Hopen.
  destruct w as [s tr a b c d]. simpl in *.
  cbv [stop_dynamodb bind get_self modify_self emit shutdown join call ret raise
       try_except wait_for_port_closed retry stopping run_safe LOG].
  simpl. rewrite Ht, Hsh, Hjoin. simpl.
  rewrite retry_port_exhausted; [| exact Hopen].
  rewrite Hps, Hpid. simpl. rewrite Hlookup.
  unfold polled. f_equal. destruct s. same_world.
Qed.

Lemma stop_dynamodb_thread (w : World) (t : ShellCommandThread) :
  _thread (self w) = Some t ->
  _thread (self (snd (stop_dynamodb r w)))
  = Some {| auto_restart := false; process := process t |}.
Proof.
  intros Ht. unfold stop_dynamodb. unfold bind at 1. unfold get_self at 1.
  cbv beta iota. rewrite Ht.
  unfold bind at 1. unfold modify_self at 1. cbv beta iota.
  lazymatch goal with
  | |- _thread (self (snd (?m ?W))) = ?v =>
      assert (K : keeps (fun s => _thread s = v) m) by kept;
      apply K; reflexivity
  end.
Qed.

Lemma stop_dynamodb_begins (w : World) (t : ShellCommandThread) :
  _thread (self w) = Some t ->
  exists evs,
    trace (snd (stop_dynamodb r w))
    = trace w ++ EvAutoRestart false :: EvShutdown :: evs.
Proof.
  intros Ht. unfold stop_dynamodb. unfold bind at 1. unfold get_self at 1.
  cbv beta iota. rewrite Ht.
  unfold bind at 1. unfold modify_self at 1. cbv beta iota.
  unfold bind at 1. unfold emit at 1. cbv beta iota.
  unfold shutdown. unfold bind at 1. unfold bind at 1. unfold call at 1.
  unfold bind at 1. unfold emit at 1. cbv beta iota.
  destruct (shutdown_fails r).
  - exists []. cbn. rewrite <- app_assoc. reflexivity.
  - unfold ret at 1. cbv beta iota. unfold modify_self at 1. cbv beta iota.
    lazymatch goal with
    | |- exists evs, trace (snd (?m ?W)) = _ =>
        assert (B : bounded spawn_weight m 0) by bound_by;
        destruct (B W) as [evs [E _]]; exists evs; rewrite E
    end.
    cbn. rewrite <- !app_assoc. reflexivity.
Qed.

End StopSteps.

(** * More on the constructor and the command line *)

(** X1.  With persistence enabled and the MANUAL save strategy, and
    [DYNAMODB_IN_MEMORY] off, the server keeps its tables in the absolute
    path of [<tmp>/dynamodb]: the [db_path] argument and the data directory
    are both overridden. *)
Theorem manual_strategy_uses_tmp (h : Host) (port_arg : option Z) (host_arg : string)
    (db_path_arg : option string) :
  is_env_true h "DYNAMODB_IN_MEMORY" = false ->
  is_persistence_enabled h = true ->
  SNAPSHOT_SAVE_STRATEGY h = "MANUAL" ->
  db_path (__init__ h port_arg host_arg db_path_arg)
  = Some (abspath h (dirs_tmp h ++ "/dynamodb")).
Proof.
  intros Hmem Hpers Hman. simpl. unfold init_db_path.
  rewrite Hmem, Hpers, Hman. simpl. rewrite append_nonempty. reflexivity.
Qed.

Lemma manual_strategy_uses_tmp_witness :
  db_path (__init__ manual_host None "localhost" (Some "/var/lib/ddb"))
  = Some "/tmp/localstack/dynamodb".
Proof.
  apply (manual_strategy_uses_tmp manual_host None "localhost" (Some "/var/lib/ddb"));
    reflexivity.
Defined.

(** X2.  Without [DYNAMODB_IN_MEMORY] and without the MANUAL strategy: a
    non-empty [db_path] argument is kept, made absolute, whatever the data
    directory is; an absent or empty argument falls back to
    [<data>/dynamodb] when a data directory is configured; and with neither,
    [db_path] stays the argument itself, [None] or the empty string. *)
Theorem db_path_argument_or_data_directory (h : Host) (port_arg : option Z)
    (host_arg : string) (db_path_arg : option string) :
  is_env_true h "DYNAMODB_IN_MEMORY" = false ->
  is_persistence_enabled h && (SNAPSHOT_SAVE_STRATEGY h =? "MANUAL") = false ->
  (forall p, db_path_arg = Some p -> p <> "" ->
     db_path (__init__ h port_arg host_arg db_path_arg) = Some (abspath h p))
  /\ (forall d, truthy db_path_arg = false -> dirs_data h = Some d -> d <> "" ->
        db_path (__init__ h port_arg host_arg db_path_arg)
        = Some (abspath h (d ++ "/dynamodb")))
  /\ (truthy db_path_arg = false -> truthy (dirs_data h) = false ->
      db_path (__init__ h port_arg host_arg db_path_arg) = db_path_arg).
Proof.
  intros Hmem Hman. simpl. unfold init_db_path. rewrite Hmem, Hman.
  split; [|split].
  - intros p -> Hp.
    assert (E : (p =? "") = false) by (apply String.eqb_neq; exact Hp).
    destruct (dirs_data h) as [d|]; simpl; rewrite E; simpl; rewrite ?E; reflexivity.
  - intros d Hfalsy -> Hd.
    assert (E : (d =? "") = false) by (apply String.eqb_neq; exact Hd).
    rewrite Hfalsy. simpl. rewrite E. simpl. rewrite append_nonempty. reflexivity.
  - intros Hfalsy Hdata. rewrite Hfalsy, Hdata.
    destruct (dirs_data h) as [d|]; simpl;
      (destruct db_path_arg as [p|]; [|reflexivity];
       simpl in Hfalsy |- *; rewrite Hfalsy; reflexivity).
Qed.

Lemma db_path_argument_or_data_directory_witness :
  db_path (__init__ example_host None "localhost" (Some "ddb")) = Some "/opt/code/ddb"
  /\ db_path (__init__ example_host None "localhost" (Some "")) = Some "".
Proof.
  destruct (db_path_argument_or_data_directory example_host None "localhost" (Some "ddb")
              eq_refl eq_refl) as [Hkeep _].
  destruct (db_path_argument_or_data_directory example_host None "localhost" (Some "")
              eq_refl eq_refl) as [_ [_ Hnone]].
  split.
  - apply (Hkeep "ddb"); [reflexivity | discriminate].
  - apply Hnone; reflexivity.
Defined.

(** X3.  The data path of a constructed server is [None], the empty
    string or a result of [os.path.abspath]; so on a host whose [abspath]
    returns absolute paths it is empty or begins with a slash, and never
    begins with a dash. *)
Theorem constructed_db_path_shape (h : Host) (port_arg : option Z) (host_arg : string)
    (db_path_arg : option string) :
  let s := __init__ h port_arg host_arg db_path_arg in
  (db_path s = None \/ db_path s = Some ""
   \/ exists p, db_path s = Some (abspath h p))
  /\ ((forall p, starts_with "/" (abspath h p) = true) ->
      plain_db_path s = true
      /\ (forall q, db_path s = Some q -> q = "" \/ starts_with "/" q = true)).
Proof.
  intros s. split; [apply init_db_path_cases|].
  intros Habs. split; [apply init_plain_db_path; exact Habs|].
  intros q Hq.
  destruct (init_db_path_cases h db_path_arg) as [E|[E|[p E]]];
    change (db_path s) with (init_db_path h db_path_arg) in Hq;
    rewrite E in Hq.
  - discriminate Hq.
  - left. injection Hq as <-. reflexivity.
  - right. injection Hq as <-. apply Habs.
Qed.

Lemma abspath_example_host (p : string) : starts_with "/" (abspath example_host p) = true.
Proof.
  simpl. destruct (starts_with "/" p) eqn:E; [exact E | reflexivity].
Qed.

Lemma constructed_db_path_shape_witness :
  plain_db_path (__init__ example_host None "localhost" (Some "ddb")) = true
  /\ starts_with "/" "/opt/code/ddb" = true.
Proof.
  destruct (constructed_db_path_shape example_host None "localhost" (Some "ddb"))
    as [_ Habs].
  destruct (Habs abspath_example_host) as [Hplain Hslash].
  split; [exact Hplain|].
  destruct (Hslash "/opt/code/ddb" eq_refl) as [H|H]; [discriminate H | exact H].
Defined.

(** X4.  From the environment to the command line: on a host whose
    [abspath] returns absolute paths, the command line of a constructed
    server contains each of the three switches exactly when its variable
    ([DYNAMODB_DELAY_TRANSIENT_STATUSES],
    [DYNAMODB_OPTIMIZE_DB_BEFORE_STARTUP], [DYNAMODB_SHARE_DB]) is true,
    contains [-Xmx] with the configured heap size, and never contains
    [-cors], whatever [DYNAMODB_CORS] is. *)
Theorem environment_reaches_command_line (h : Host) (port_arg : option Z)
    (host_arg : string) (db_path_arg : option string) :
  (forall p, starts_with "/" (abspath h p) = true) ->
  let s := __init__ h port_arg host_arg db_path_arg in
  (In "-delayTransientStatuses" (_create_shell_command h s)
     <-> is_env_true h "DYNAMODB_DELAY_TRANSIENT_STATUSES" = true)
  /\ (In "-optimizeDbBeforeStartup" (_create_shell_command h s)
     <-> is_env_true h "DYNAMODB_OPTIMIZE_DB_BEFORE_STARTUP" = true)
  /\ (In "-sharedDb" (_create_shell_command h s)
     <-> is_env_true h "DYNAMODB_SHARE_DB" = true)
  /\ In ("-Xmx" ++ DYNAMODB_HEAP_SIZE h)%string (_create_shell_command h s)
  /\ ~ In "-cors" (_create_shell_command h s).
Proof.
  intros Habs s.
  destruct (in_options h s (init_plain_db_path h port_arg host_arg db_path_arg Habs))
    as [Hdelay [Hopt [Hshare [Hcors _]]]].
  split; [exact Hdelay|]. split; [exact Hopt|]. split; [exact Hshare|].
  split; [apply (heap_option_present h s) | exact Hcors].
Qed.

Lemma abspath_manual_host (p : string) : starts_with "/" (abspath manual_host p) = true.
Proof.
  simpl. destruct (starts_with "/" p) eqn:E; [exact E | reflexivity].
Qed.

Lemma environment_reaches_command_line_witness :
  In "-sharedDb" (_create_shell_command manual_host
                    (__init__ manual_host None "localhost" None))
  /\ ~ In "-cors" (_create_shell_command manual_host
                     (__init__ manual_host None "localhost" None)).
Proof.
  destruct (environment_reaches_command_line manual_host None "localhost" None
              abspath_manual_host) as [_ [_ [Hshare [_ Hcors]]]].
  split; [apply Hshare; reflexivity | exact Hcors].
Defined.

(** X5.  With [DYNAMODB_IN_MEMORY] true the command line of the
    constructed server contains [-inMemory] and no [-dbPath], whatever the
    [db_path] argument, the data directory and the save strategy are. *)
Theorem in_memory_reaches_command_line (h : Host) (port_arg : option Z)
    (host_arg : string) (db_path_arg : option string) :
  is_env_true h "DYNAMODB_IN_MEMORY" = true ->
  let s := __init__ h port_arg host_arg db_path_arg in
  In "-inMemory" (_create_shell_command h s)
  /\ ~ In "-dbPath" (_create_shell_command h s).
Proof.
  intros Hmem s.
  assert (E : db_path s = None)
    by (simpl; unfold init_db_path; rewrite Hmem; reflexivity).
  assert (Hplain : plain_db_path s = true)
    by (unfold plain_db_path; rewrite E; reflexivity).
  destruct (data_path_cases h s Hplain) as [Hin [_ [Hdb _]]].
  split; [apply Hin; exact E|].
  intros H. apply Hdb in H. destruct H as [X [HX _]].
  rewrite E in HX. discriminate HX.
Qed.

Lemma in_memory_reaches_command_line_witness :
  In "-inMemory"
    (_create_shell_command in_memory_host
       (__init__ in_memory_host None "localhost" (Some "/var/lib/ddb"))).
Proof.
  apply (proj1 (in_memory_reaches_command_line in_memory_host None "localhost"
                  (Some "/var/lib/ddb") eq_refl)).
Defined.

(** X6.  The port survives the command line: [-port] is followed by the
    decimal text of the server's port, and for a server whose data path
    does not begin with a dash whatever follows a [-port] reads back, as an
    integer, to that port. *)
Theorem port_round_trip (h : Host) (s : DynamodbServer) :
  plain_db_path s = true ->
  has_pair "-port" (str (port s)) (_create_shell_command h s)
  /\ (forall v, has_pair "-port" v (_create_shell_command h s) ->
                int_of_str v = Some (port s)).
Proof.
  intros Hplain. split; [apply port_flag_present|].
  exact (proj2 (proj2 (proj2 (proj2 (in_options h s Hplain))))).
Qed.

Lemma port_round_trip_witness :
  has_pair "-port" "4566" (_create_shell_command example_host example_server)
  /\ int_of_str "4566" = Some 4566%Z.
Proof.
  destruct (port_round_trip example_host example_server eq_refl) as [Hpair Hread].
  split; [exact Hpair | apply Hread; exact Hpair].
Defined.

(** * More on start and stop *)

(** X7.  What one call of [start_dynamodb] never does, whatever the world
    and the runtime and whether it returns or raises: it spawns at most
    one process, and it neither looks at the port, nor touches a watcher
    thread (restart switch, shutdown, join), nor terminates or kills
    anything. *)
Theorem start_dynamodb_only_starts (h : Host) (r : Runtime) :
  bounded spawn_weight (start_dynamodb h r) 1
  /\ bounded port_check_weight (start_dynamodb h r) 0
  /\ bounded shutdown_weight (start_dynamodb h r) 0
  /\ bounded terminate_weight (start_dynamodb h r) 0
  /\ bounded kill_weight (start_dynamodb h r) 0.
Proof. repeat split; bound_by. Qed.

(** X8.  One call of [start_dynamodb] makes at most ten health probes and
    pauses for at most 4 seconds in all (ten pauses of 0.4 seconds),
    whatever the world and the runtime and whether it returns or raises. *)
Theorem start_dynamodb_waits_at_most (h : Host) (r : Runtime) :
  bounded probe_weight (start_dynamodb h r) 10
  /\ bounded wait_weight (start_dynamodb h r) 4000.
Proof. repeat split; bound_by. Qed.


(** X10.  One call of [stop_dynamodb] looks at the port at most 18 times
    (ten and eight), and its join timeout and pauses add up to at most 22
    seconds (10 for the join, ten pauses of 0.8 and eight of 0.5), whatever
    the world and the runtime and whether it returns or raises. *)
Theorem stop_dynamodb_waits_at_most (r : Runtime) :
  bounded port_check_weight (stop_dynamodb r) 18
  /\ bounded wait_weight (stop_dynamodb r) 22000.
Proof. repeat split; bound_by. Qed.

(** X11.  Neither [start_dynamodb] nor [stop_dynamodb] changes the
    configuration of the server (port, host, data path, heap size, the
    three switches, CORS), whatever the world and the runtime and whether
    they return or raise. *)
Theorem configuration_is_kept (h : Host) (r : Runtime) (w : World) :
  config_of (self (snd (start_dynamodb h r w))) = config_of (self w)
  /\ config_of (self (snd (stop_dynamodb r w))) = config_of (self w).
Proof.
  split.
  - assert (K : keeps (fun s => config_of s = config_of (self w)) (start_dynamodb h r))
      by kept.
    apply K. reflexivity.
  - assert (K : keeps (fun s => config_of s = config_of (self w)) (stop_dynamodb r))
      by kept.
    apply K. reflexivity.
Qed.

(** X12.  One call of [check_dynamodb] makes one probe and leaves the
    server object alone.  Expecting the server up, it passes exactly when
    the answer carries a list under ["TableNames"]; a probe that raised
    surfaces as [TypeError], an answer without the key as [KeyError], one
    whose value is not a list as [AssertionError].  Expecting a shutdown,
    it passes exactly when the probe raised and fails with
    [AssertionError] on every answer.  The two expectations never pass on
    the same probe. *)
Theorem check_dynamodb_outcomes (r : Runtime) (w : World) :
  (fst (check_dynamodb r false w) = Ok tt
     <-> list_tables r (probes w) = Some (TableNames true))
  /\ (fst (check_dynamodb r true w) = Ok tt <-> list_tables r (probes w) = None)
  /\ (list_tables r (probes w) = None ->
      fst (check_dynamodb r false w) = Raise TypeError)
  /\ (list_tables r (probes w) = Some NoTableNames ->
      fst (check_dynamodb r false w) = Raise KeyError)
  /\ (list_tables r (probes w) = Some (TableNames false) ->
      fst (check_dynamodb r false w) = Raise AssertionError)
  /\ (forall out, list_tables r (probes w) = Some out ->
      fst (check_dynamodb r true w) = Raise AssertionError)
  /\ (forall b, probes (snd (check_dynamodb r b w)) = S (probes w)
                /\ self (snd (check_dynamodb r b w)) = self w).
Proof.
  unfold check_dynamodb, bind, try_except, probe, LOG, emit, ret, raise.
  destruct (list_tables r (probes w)) as [[|[]]|]; simpl;
    repeat split; try reflexivity; try discriminate;
    try (intros H; discriminate H);
    try (intros out H; reflexivity);
    try (destruct b; reflexivity).
Qed.

Lemma check_dynamodb_outcomes_witness :
  fst (check_dynamodb stubborn_runtime false (fresh_world example_server)) = Raise TypeError
  /\ fst (check_dynamodb stubborn_runtime true (fresh_world example_server)) = Ok tt
  /\ fst (check_dynamodb slow_runtime true (fresh_world example_server))
     = Raise AssertionError.
Proof.
  destruct (check_dynamodb_outcomes stubborn_runtime (fresh_world example_server))
    as [_ [Hdown [Hnone _]]].
  destruct (check_dynamodb_outcomes slow_runtime (fresh_world example_server))
    as [_ [_ [_ [_ [_ [Hup _]]]]]].
  split; [apply Hnone; reflexivity|].
  split; [apply Hdown; reflexivity|].
  apply (Hup (TableNames true)). reflexivity.
Defined.

(** X13.  [wait_for_dynamodb] returns exactly when one of the next ten
    probes passes; it then has made no probe beyond the first that passed,
    with a pause of 0.4 seconds after each failed one, and has left the
    server object alone. *)
Theorem wait_for_dynamodb_returns_iff (r : Runtime) (w : World) :
  (fst (wait_for_dynamodb r w) = Ok tt
     <-> exists k, k < 10 /\ passes (list_tables r (probes w + k)) = true)
  /\ (forall k,
        k < 10 ->
        (forall j, j < k -> passes (list_tables r (probes w + j)) = false) ->
        passes (list_tables r (probes w + k)) = true ->
        probes (snd (wait_for_dynamodb r w)) = probes w + S k
        /\ actions (trace (snd (wait_for_dynamodb r w)))
           = actions (trace w) ++ rounds [EvProbe; EvSleep 400] k ++ [EvProbe])
  /\ self (snd (wait_for_dynamodb r w)) = self w.
Proof.
  assert (Hfirst : forall k,
            k < 10 ->
            (forall j, j < k -> passes (list_tables r (probes w + j)) = false) ->
            passes (list_tables r (probes w + k)) = true ->
            wait_for_dynamodb r w
            = (Ok tt, probed w (failed_probes r (probes w) k ++ [EvProbe]) (S k))).
  { intros k Hk Hfail Hpass. unfold wait_for_dynamodb, retry.
    apply retry_probe_passes; assumption. }
  split; [|split].
  - destruct (first_false_or_all_true
                (fun j => negb (passes (list_tables r (probes w + j)))) 10)
      as [[k [Hk [Hfail Hpass]]]|Hall].
    + apply negb_false_iff in Hpass.
      assert (Hfail' : forall j, j < k -> passes (list_tables r (probes w + j)) = false)
        by (intros j Hj; apply negb_true_iff; apply Hfail; exact Hj).
      rewrite (Hfirst k Hk Hfail' Hpass). split; [|reflexivity].
      intros _. exists k. split; assumption.
    + assert (Hall' : forall j, j < 10 -> passes (list_tables r (probes w + j)) = false)
        by (intros j Hj; apply negb_true_iff; apply Hall; exact Hj).
      unfold wait_for_dynamodb, retry. rewrite retry_probe_exhausted by exact Hall'.
      split; [intros H; discriminate H|].
      intros [k [Hk Hpass]]. rewrite (Hall' k Hk) in Hpass. discriminate Hpass.
  - intros k Hk Hfail Hpass. rewrite (Hfirst k Hk Hfail Hpass).
    split; [reflexivity|].
    cbn [snd]. rewrite trace_probed, !actions_app, actions_failed_probes. reflexivity.
  - apply wait_for_dynamodb_keeps_self.
Qed.

Lemma wait_for_dynamodb_returns_iff_witness :
  fst (wait_for_dynamodb healthy_runtime (fresh_world example_server)) = Ok tt
  /\ probes (snd (wait_for_dynamodb healthy_runtime (fresh_world example_server))) = 3.
Proof.
  destruct (wait_for_dynamodb_returns_iff healthy_runtime (fresh_world example_server))
    as [Hiff [Hcount _]].
  split.
  - apply Hiff. exists 2. split; [lia | reflexivity].
  - apply (Hcount 2); [lia | | reflexivity].
    intros j Hj. destruct j as [|[|j]]; [reflexivity | reflexivity | lia].
Defined.

Opaque wait_for_dynamodb.

(** X14.  [start_dynamodb] never returns [False]: it either returns
    [True] or raises, whatever the world and the runtime. *)
Theorem start_dynamodb_never_returns_false (h : Host) (r : Runtime) (w : World) :
  fst (start_dynamodb h r w) <> Ok false.
Proof.
  destruct w as [s tr a b c d]. destruct s as [? ? dbp ? ? ? ? ? ? ? ?].
  cbv [start_dynamodb bind is_running is_up ret modify_self get_self
       start do_start_thread call emit LOG raise].
  cbn.
  destruct (thread_running r a); cbn; [destruct (health r b); cbn|];
    try discriminate;
    (destruct dbp as [[|ch p]|]; cbn;
     try (destruct (mkdir_fails r); cbn; try discriminate);
     (destruct (install_fails r); cbn; try discriminate);
     match goal with
     | |- context [wait_for_dynamodb r ?W] =>
         destruct (wait_for_dynamodb r W) as [[u|e] w']
     end; cbn; discriminate).
Qed.

Transparent wait_for_dynamodb.

(** X15.  Start after stop.  On a server whose started flag is set, as a
    stop leaves it, [Server.start] alone returns [False] and does nothing;
    [start_dynamodb] resets the flags first, so with the process not live
    and the directory and the installer going through it spawns a process
    again and leaves the server started and not stopped, whether the
    health checks then pass or not. *)
Theorem start_after_stop_spawns_again (h : Host) (r : Runtime) (w : World) :
  _started (self w) = true ->
  start h r w = (Ok false, w)
  /\ (liveness r w = false ->
      install_fails r = false ->
      mkdir_fails r = false ->
      spawns (trace (snd (start_dynamodb h r w))) = S (spawns (trace w))
      /\ _started (self (snd (start_dynamodb h r w))) = true
      /\ _stopped (self (snd (start_dynamodb h r w))) = false).
Proof.
  intros Hstarted. split; [apply start_refuses_when_started; exact Hstarted|].
  intros Hl Hi Hm. rewrite (start_dynamodb_after_launch h r w Hl Hi Hm).
  rewrite wait_for_dynamodb_no_spawn, wait_for_dynamodb_keeps_self, spawns_launched.
  repeat split.
Qed.

Lemma start_after_stop_spawns_again_witness :
  _stopped (self (snd (stop_dynamodb healthy_runtime started_world))) = true
  /\ start example_host healthy_runtime (snd (stop_dynamodb healthy_runtime started_world))
     = (Ok false, snd (stop_dynamodb healthy_runtime started_world))
  /\ spawns (trace (snd (start_dynamodb example_host healthy_runtime
                           (snd (stop_dynamodb healthy_runtime started_world)))))
     = 1.
Proof.
  destruct (start_after_stop_spawns_again example_host healthy_runtime
              (snd (stop_dynamodb healthy_runtime started_world)) eq_refl)
    as [Hrefuse Hagain].
  split; [reflexivity|]. split; [exact Hrefuse|].
  destruct (Hagain eq_refl eq_refl eq_refl) as [Hspawn _]. exact Hspawn.
Defined.

(** X16.  Once [start_dynamodb] has got past the installer, the watcher
    thread is left in the server with restarts switched on, whether the
    health checks pass or the call raises; and as starting never shuts
    anything down, a further [start_dynamodb] that still finds the process
    not live spawns a second process. *)
Theorem start_leaves_thread_in_place (h : Host) (r : Runtime) (w : World) :
  liveness r w = false ->
  install_fails r = false ->
  mkdir_fails r = false ->
  _thread (self (snd (start_dynamodb h r w)))
  = Some {| auto_restart := true; process := spawned_pid r |}
  /\ (liveness r (snd (start_dynamodb h r w)) = false ->
      spawns (trace (snd (start_dynamodb h r (snd (start_dynamodb h r w)))))
      = S (S (spawns (trace w)))).
Proof.
  intros Hl Hi Hm. split.
  - rewrite (start_dynamodb_after_launch h r w Hl Hi Hm).
    rewrite wait_for_dynamodb_keeps_self. reflexivity.
  - intros Hl2.
    rewrite (start_dynamodb_after_launch h r _ Hl2 Hi Hm).
    rewrite wait_for_dynamodb_no_spawn, spawns_launched.
    rewrite (start_dynamodb_after_launch h r w Hl Hi Hm).
    rewrite wait_for_dynamodb_no_spawn, spawns_launched. reflexivity.
Qed.

Lemma start_leaves_thread_in_place_witness :
  fst (start_dynamodb example_host stubborn_runtime (fresh_world example_server))
  = Raise TypeError
  /\ _thread (self (snd (start_dynamodb example_host stubborn_runtime
                           (fresh_world example_server))))
     = Some {| auto_restart := true; process := Some 4711%Z |}
  /\ spawns (trace (snd (start_dynamodb example_host stubborn_runtime
                           (snd (start_dynamodb example_host stubborn_runtime
                                   (fresh_world example_server))))))
     = 2.
Proof.
  destruct (start_leaves_thread_in_place example_host stubborn_runtime
              (fresh_world example_server) eq_refl eq_refl eq_refl) as [Hthread Htwice].
  split; [vm_compute; reflexivity|]. split; [exact Hthread|].
  apply Htwice. vm_compute. reflexivity.
Defined.

(** X17.  When the data directory cannot be made, [start_dynamodb] raises
    before the installer runs and before anything is spawned: the trace
    ends with the [mkdir], the thread handle is the one from before, and
    the flags are left reset. *)
Theorem mkdir_failure_aborts_start (h : Host) (r : Runtime) (w : World) (p : string) :
  liveness r w = false ->
  db_path (self w) = Some p ->
  p <> "" ->
  mkdir_fails r = true ->
  exists w',
    start_dynamodb h r w = (Raise OSError, w')
    /\ trace w' = trace w ++ guard_events r w ++ [EvMkdir p]
    /\ _thread (self w') = _thread (self w)
    /\ _started (self w') = false /\ _stopped (self w') = false.
Proof.
  intros Hl Hp Hne Hm. eexists. split.
  - apply (start_dynamodb_mkdir_fails h r w p); assumption.
  - repeat split.
Qed.

Lemma mkdir_failure_aborts_start_witness :
  exists w',
    start_dynamodb example_host (runtime_with (fun _ => true) None false true false)
      (fresh_world example_server) = (Raise OSError, w')
    /\ trace w' = [EvIsRunning; EvMkdir "/var/lib/ddb"].
Proof.
  destruct (mkdir_failure_aborts_start example_host
              (runtime_with (fun _ => true) None false true false)
              (fresh_world example_server) "/var/lib/ddb" eq_refl eq_refl)
    as [w' [E [Htr _]]]; [discriminate | reflexivity |].
  exists w'. split; [exact E | exact Htr].
Defined.

(** X18.  When the installer fails, [start_dynamodb] raises without
    spawning: the trace ends with the installer call, the thread handle is
    the one from before and the started flag is reset; on a server that
    had no thread, a stop after such a start still does nothing. *)
Theorem install_failure_aborts_start (h : Host) (r : Runtime) (w : World) :
  liveness r w = false ->
  mkdir_fails r = false ->
  install_fails r = true ->
  exists w',
    start_dynamodb h r w = (Raise OSError, w')
    /\ trace w' = trace w ++ guard_events r w ++ mkdir_events (self w) ++ [EvInstall]
    /\ spawns (trace w') = spawns (trace w)
    /\ _thread (self w') = _thread (self w)
    /\ _started (self w') = false
    /\ (_thread (self w) = None -> stop_dynamodb r w' = (Ok tt, w')).
Proof.
  intros Hl Hm Hi. eexists. split.
  - apply (start_dynamodb_install_fails h r w); assumption.
  - split; [reflexivity|]. split; [|split; [reflexivity|split; [reflexivity|]]].
    + cbn [trace]. rewrite !spawns_app.
      unfold guard_events, mkdir_events.
      destruct (thread_running r (running_calls w));
        destruct (db_path (self w)) as [p|]; try destruct (truthy (Some p));
        unfold spawns; simpl; lia.
    + intros Hnone. apply stop_dynamodb_none. exact Hnone.
Qed.

Lemma install_failure_aborts_start_witness :
  exists w',
    start_dynamodb example_host (runtime_with (fun _ => true) None true false false)
      (fresh_world example_server) = (Raise OSError, w')
    /\ trace w' = [EvIsRunning; EvMkdir "/var/lib/ddb"; EvInstall]
    /\ stop_dynamodb (runtime_with (fun _ => true) None true false false) w' = (Ok tt, w').
Proof.
  destruct (install_failure_aborts_start example_host
              (runtime_with (fun _ => true) None true false false)
              (fresh_world example_server) eq_refl eq_refl eq_refl)
    as [w' [E [Htr [_ [_ [_ Hstop]]]]]].
  exists w'. split; [exact E|]. split; [exact Htr | apply Hstop; reflexivity].
Defined.

(** X19.  The child is started with the command line of the server and
    with the environment of the installer in which [DDB_LOCAL_TELEMETRY] is
    ["0"], whatever the installer says about that variable; every other
    variable is the installer's. *)
Theorem telemetry_is_switched_off (h : Host) (r : Runtime) (w : World) :
  liveness r w = false ->
  install_fails r = false ->
  mkdir_fails r = false ->
  exists env_vars,
    In (EvSpawn (_create_shell_command h (self w)) env_vars)
       (trace (snd (start_dynamodb h r w)))
    /\ dict_get "DDB_LOCAL_TELEMETRY" env_vars = Some "0"
    /\ (forall k, k <> "DDB_LOCAL_TELEMETRY" ->
                  dict_get k env_vars = dict_get k (get_java_env_vars r)).
Proof.
  intros Hl Hi Hm.
  exists (dict_set "DDB_LOCAL_TELEMETRY" "0" (get_java_env_vars r)).
  split; [|split].
  - rewrite (start_dynamodb_after_launch h r w Hl Hi Hm).
    assert (B : bounded spawn_weight (wait_for_dynamodb r) 0) by bound_by.
    destruct (B (launched h r w)) as [evs [E _]]. rewrite E.
    apply in_or_app. left. unfold launched. cbn [trace].
    apply in_or_app. right. apply in_or_app. right. apply in_or_app. right.
    right. right. left. reflexivity.
  - apply dict_get_set_same.
  - intros k Hk. apply dict_get_set_other. exact Hk.
Qed.

Lemma telemetry_is_switched_off_witness :
  exists env_vars,
    In (EvSpawn (_create_shell_command example_host example_server) env_vars)
       (trace (snd (start_dynamodb example_host
                      (runtime_with (fun _ => true) None false false false)
                      (fresh_world example_server))))
    /\ dict_get "DDB_LOCAL_TELEMETRY" env_vars = Some "0"
    /\ dict_get "JAVA_HOME" env_vars = Some "/usr/lib/jvm/java-21".
Proof.
  destruct (telemetry_is_switched_off example_host
              (runtime_with (fun _ => true) None false false false)
              (fresh_world example_server) eq_refl eq_refl eq_refl)
    as [env [Hin [Hoff Hrest]]].
  exists env. split; [exact Hin|]. split; [exact Hoff|].
  rewrite Hrest; [reflexivity | discriminate].
Defined.

(** X20.  With a thread handle, [stop_dynamodb] always begins by
    switching off the restarts of the watcher and sending the shutdown, and
    it leaves the handle in the server with restarts off, whatever happens
    next and whether it returns or raises. *)
Theorem stop_dynamodb_always_disables_restart (r : Runtime) (w : World)
    (t : ShellCommandThread) :
  _thread (self w) = Some t ->
  _thread (self (snd (stop_dynamodb r w)))
  = Some {| auto_restart := false; process := process t |}
  /\ exists evs,
       trace (snd (stop_dynamodb r w))
       = trace w ++ EvAutoRestart false :: EvShutdown :: evs.
Proof.
  intros Ht. split.
  - apply stop_dynamodb_thread. exact Ht.
  - apply (stop_dynamodb_begins r w t). exact Ht.
Qed.

Lemma stop_dynamodb_always_disables_restart_witness :
  fst (stop_dynamodb stubborn_runtime started_world) = Raise PortNotClosed
  /\ _thread (self (snd (stop_dynamodb stubborn_runtime started_world)))
     = Some {| auto_restart := false; process := Some 4711%Z |}.
Proof.
  split; [vm_compute; reflexivity|].
  exact (proj1 (stop_dynamodb_always_disables_restart stubborn_runtime started_world
                  {| auto_restart := true; process := Some 4711%Z |} eq_refl)).
Defined.

(** X21.  When the port is still open after the first ten looks and the
    watcher exposes no process, [stop_dynamodb] raises [AttributeError]
    right after the warning; when the process of the watcher cannot be
    found, it raises after the lookup.  In both cases neither terminate nor
    kill is called and the port is not looked at again. *)
Theorem stop_dynamodb_without_process (r : Runtime) (w : World) (t : ShellCommandThread) :
  _thread (self w) = Some t ->
  shutdown_fails r = false ->
  join_fails r = false ->
  ps_fails r = false ->
  (forall j, j < 10 -> port_open r (polls w + j) = true) ->
  (process t = None ->
   stop_dynamodb r w
   = (Raise AttributeError,
      polled (stopping w t)
        (rounds [EvPortCheck (port (self w)); EvSleep 800] 10
         ++ [EvPsAux; EvLog "warning"]) 10))
  /\ (forall pid,
        process t = Some pid ->
        no_such_process r = true ->
        stop_dynamodb r w
        = (Raise NoSuchProcess,
           polled (stopping w t)
             (rounds [EvPortCheck (port (self w)); EvSleep 800] 10
              ++ [EvPsAux; EvLog "warning"; EvLog "info"; EvProcessLookup pid]) 10)).
Proof.
  intros Ht Hsh Hjoin Hps Hopen. split.
  - intros Hnone. apply stop_dynamodb_no_process; assumption.
  - intros pid Hpid Hlookup. apply stop_dynamodb_lookup_fails; assumption.
Qed.

Lemma stop_dynamodb_without_process_witness :
  fst (stop_dynamodb (runtime_with (fun _ => true) None false false false)
         started_world_without_process) = Raise AttributeError
  /\ fst (stop_dynamodb (runtime_with (fun _ => true) None false false true)
            started_world) = Raise NoSuchProcess.
Proof.
  split.
  - rewrite (proj1 (stop_dynamodb_without_process
                      (runtime_with (fun _ => true) None false false false)
                      started_world_without_process
                      {| auto_restart := true; process := None |}
                      eq_refl eq_refl eq_refl eq_refl (fun j _ => eq_refl)) eq_refl).
    reflexivity.
  - rewrite (proj2 (stop_dynamodb_without_process
                      (runtime_with (fun _ => true) None false false true)
                      started_world
                      {| auto_restart := true; process := Some 4711%Z |}
                      eq_refl eq_refl eq_refl eq_refl (fun j _ => eq_refl))
               4711%Z eq_refl eq_refl).
    reflexivity.
Defined.
